(** * Atlas: the 3I/ATLAS trajectory script (src/atlas.py)

    A shallow embedding of the script's data and operations:

    - the calendar arithmetic behind [nov1_index] (lines 49-52);
    - the ephemeris fetch and the sentinel fill of masked samples
      (lines 32-47);
    - the static scene (lines 58-70);
    - the per-frame callback [update] and the frame source handed to
      [FuncAnimation] (lines 102-119).

    Coordinates are IEEE binary64 numbers in the source and are kept as
    such ([PrimFloat.float]).  Python containers keep their behaviour:
    an index out of range raises [IndexError], a negative index counts
    from the end, a slice clamps, a dict iterates in insertion order and
    raises [KeyError] on a missing key. *)

From Stdlib Require Import ZArith List Lia Bool Ascii String QArith.
From Stdlib Require Import Floats.
Import ListNotations.

Set Warnings "-inexact-float".
Open Scope Z_scope.

(** ** Python sequences *)

Module Py.

(** Exceptions the modelled statements can raise. *)
Inductive exn : Type :=
| IndexError
| KeyError (key : string)
| ValueError
| ServiceError (msg : string).

Definition result (A : Type) : Type := (exn + A)%type.

Definition len {A} (l : list A) : Z := Z.of_nat (List.length l).

(** [l[i]]: a negative [i] counts from the end; out of range raises.
    The index is one a C long holds, from -2^63 up to 2^63 - 1; numpy
    rejects an integer beyond that with [OverflowError] before it looks
    at the bounds, which is not modelled. *)
Definition index {A} (l : list A) (i : Z) : result A :=
  let j := if i <? 0 then len l + i else i in
  if (j <? 0) || (len l <=? j) then inl IndexError
  else match nth_error l (Z.to_nat j) with
       | Some v => inr v
       | None => inl IndexError
       end.

(** [l[:j]]: a negative stop counts from the end, and the stop is
    clamped to the bounds of [l]; a slice never raises. *)
Definition slice_to {A} (l : list A) (j : Z) : list A :=
  let stop := if j <? 0 then Z.max 0 (len l + j) else Z.min j (len l) in
  firstn (Z.to_nat stop) l.

(** [range(n)] *)
Definition range (n : Z) : list Z :=
  map Z.of_nat (seq 0 (Z.to_nat n)).

(** A dict with string keys, in insertion order. *)
Definition dict (V : Type) : Type := list (string * V).

Fixpoint get {V} (d : dict V) (k : string) : result V :=
  match d with
  | [] => inl (KeyError k)
  | (k', v) :: d' => if String.eqb k' k then inr v else get d' k
  end.

(** [d[k] = v]: replaces the value of an existing key in place, appends
    a new key at the end. *)
Fixpoint set {V} (d : dict V) (k : string) (v : V) : dict V :=
  match d with
  | [] => [(k, v)]
  | (k', v') :: d' =>
      if String.eqb k' k then (k', v) :: d' else (k', v') :: set d' k v
  end.

Definition keys {V} (d : dict V) : list string := map fst d.

End Py.

(** ** Calendar arithmetic ([datetime]) *)

Module Calendar.

Record date : Type := mkdate { year : Z; month : Z; day : Z }.

Definition is_leap (y : Z) : bool :=
  (y mod 4 =? 0) && (negb (y mod 100 =? 0) || (y mod 400 =? 0)).

Definition days_before_year (y : Z) : Z :=
  let p := y - 1 in p * 365 + p / 4 - p / 100 + p / 400.

Definition days_in_month (y m : Z) : Z :=
  if (m =? 2) && is_leap y then 29
  else nth (Z.to_nat m) [-1; 31; 28; 31; 30; 31; 30; 31; 31; 30; 31; 30; 31] 0.

Definition days_before_month (y m : Z) : Z :=
  nth (Z.to_nat m) [-1; 0; 31; 59; 90; 120; 151; 181; 212; 243; 273; 304; 334] 0
  + (if (2 <? m) && is_leap y then 1 else 0).

(** Proleptic Gregorian ordinal: 0001-01-01 is day 1. *)
Definition toordinal (d : date) : Z :=
  days_before_year (year d) + days_before_month (year d) (month d) + day d.

Definition valid (d : date) : bool :=
  (1 <=? year d) && (year d <=? 9999) &&
  (1 <=? month d) && (month d <=? 12) &&
  (1 <=? day d) && (day d <=? days_in_month (year d) (month d)).

(** [datetime(y, m, d)]: midnight of that day, [ValueError] when the
    fields do not name a day of the calendar. *)
Definition datetime (y m d : Z) : Py.result date :=
  let r := mkdate y m d in
  if valid r then inr r else inl Py.ValueError.

(** [(a - b).days] for two midnights. *)
Definition days_between (a b : date) : Z := toordinal a - toordinal b.

(** *** [strptime(s, '%Y-%b-%d')] *)

Definition digit_of (c : ascii) : option Z :=
  let n := Z.of_nat (nat_of_ascii c) in
  if (48 <=? n) && (n <=? 57) then Some (n - 48) else None.

Fixpoint number_of (acc : Z) (cs : list ascii) : option Z :=
  match cs with
  | [] => Some acc
  | c :: cs' =>
      match digit_of c with
      | Some d => number_of (10 * acc + d) cs'
      | None => None
      end
  end.

Definition lower (c : ascii) : ascii :=
  let n := nat_of_ascii c in
  if (65 <=? n)%nat && (n <=? 90)%nat then ascii_of_nat (n + 32) else c.

Definition month_abbr : list string :=
  ["jan"; "feb"; "mar"; "apr"; "may"; "jun";
   "jul"; "aug"; "sep"; "oct"; "nov"; "dec"]%string.

Fixpoint find_month (names : list string) (s : string) (m : Z) : option Z :=
  match names with
  | [] => None
  | n :: names' => if String.eqb n s then Some m else find_month names' s (m + 1)
  end.

Definition month_of (cs : list ascii) : option Z :=
  find_month month_abbr (string_of_list_ascii (map lower cs)) 1.

(** Four digits, a dash, a month abbreviation in any case, a dash and a
    day of one or two digits, or of a space and one digit; anything else
    is a [ValueError]. *)
Definition strptime_Y_b_d (s : string) : Py.result date :=
  match list_ascii_of_string s with
  | y1 :: y2 :: y3 :: y4 :: "-"%char :: b1 :: b2 :: b3 :: "-"%char :: ds =>
      match number_of 0 [y1; y2; y3; y4], month_of [b1; b2; b3], ds with
      | Some y, Some m, [" "%char; c] =>
          match digit_of c with
          | Some d => datetime y m d
          | None => inl Py.ValueError
          end
      | Some y, Some m, ([_] | [_; _]) =>
          match number_of 0 ds with
          | Some d => datetime y m d
          | None => inl Py.ValueError
          end
      | _, _, _ => inl Py.ValueError
      end
  | _ => inl Py.ValueError
  end.

End Calendar.

(** ** Date Indexer (lines 49-52) *)

Module DateIndex.
Import Calendar.

(** [int(q)] on a quotient: truncation toward zero. *)
Definition int_of (q : Q) : Z := Z.quot (Qnum q) (Zpos (Qden q)).

(** [n / 2] on an [int] is true division.  A [timedelta]'s day count is
    below 2^22 in magnitude, so its half is a binary64 number and the
    quotient is exact. *)
Definition true_div (n d : Z) : Q := (inject_Z n / inject_Z d)%Q.

Definition start_date : string := "2025-Nov-01".
Definition stop_date : string := "2026-Mar-28".
Definition step_size : string := "2d".

(** Line 52 as a function of the two dates it subtracts. *)
Definition date_index (target start : date) : Z :=
  int_of (true_div (days_between target start) 2).

(** Lines 50-52.  The two date constructions raise on a malformed date,
    so the script's [nov1_index] is a result. *)
Definition nov1_index : Py.result Z :=
  match datetime 2025 11 1 with
  | inl e => inl e
  | inr nov1_date =>
      match strptime_Y_b_d start_date with
      | inl e => inl e
      | inr start_dt => inr (date_index nov1_date start_dt)
      end
  end.

(** The range start as a date. *)
Definition start_dt : date := mkdate 2025 11 1.

(** The spec's formula, [floor((target - start) / step)]. *)
Definition floor_index (target start : date) (step : Z) : Z :=
  days_between target start / step.

End DateIndex.

(** ** Ephemeris Fetcher (lines 21-47) *)

Module Ephemeris.
Import DateIndex.

(** One entry of a numpy masked array: the stored number and its mask
    bit. *)
Record masked : Type := mkmasked { stored : float; is_masked : bool }.

(** [a.filled(v)]: [v] where the mask is set, the stored number
    elsewhere. *)
Definition filled (fill : float) (a : list masked) : list float :=
  map (fun e => if is_masked e then fill else stored e) a.

(** A row of the table returned by [vectors()]: the epoch of the sample
    and the three coordinates (the other columns are never read). *)
Record row : Type := mkrow {
  datetime_jd : float;
  row_x : masked;
  row_y : masked;
  row_z : masked
}.

Definition table : Type := list row.

Record epochs_arg : Type := mkepochs {
  ep_start : string;
  ep_stop : string;
  ep_step : string
}.

Record query : Type := mkquery {
  q_id : string;
  q_location : string;
  q_epochs : epochs_arg
}.

Definition obj_id : string := "C/2025 N1".

Definition planet_ids : Py.dict string :=
  [("Earth", "399"); ("Mars", "499"); ("Jupiter", "599")]%string.

Definition sentinel : float := 1e10%float.

(** The [Horizons(...)] object built on lines 32 and 41. *)
Definition Horizons (id : string) : query :=
  mkquery id "500@0" (mkepochs start_date stop_date step_size).

(** The three filled columns of one table, as the dict built on lines
    43-47 holds them. *)
Definition positions_of (vecs : table) : Py.dict (list float) :=
  [("x", filled sentinel (map row_x vecs));
   ("y", filled sentinel (map row_y vecs));
   ("z", filled sentinel (map row_z vecs))]%string.

(** What the script holds after line 47. *)
Record fetched : Type := mkfetched {
  x : list float;
  y : list float;
  z : list float;
  planet_positions : Py.dict (Py.dict (list float))
}.

Section Service.

(** The remote service: the answer to a query is a table or an error,
    which the script lets propagate. *)
Variable vectors : query -> Py.result table.

(** Lines 40-47: one query per planet, in the order of [planet_ids]. *)
Fixpoint fetch_planets (ids : Py.dict string)
    (acc : Py.dict (Py.dict (list float)))
  : Py.result (Py.dict (Py.dict (list float))) :=
  match ids with
  | [] => inr acc
  | (planet, pid) :: ids' =>
      match vectors (Horizons pid) with
      | inl e => inl e
      | inr planet_vecs =>
          fetch_planets ids' (Py.set acc planet (positions_of planet_vecs))
      end
  end.

(** Lines 32-47. *)
Definition fetch : Py.result fetched :=
  match vectors (Horizons obj_id) with
  | inl e => inl e
  | inr vecs =>
      match fetch_planets planet_ids [] with
      | inl e => inl e
      | inr pp =>
          inr (mkfetched (filled sentinel (map row_x vecs))
                         (filled sentinel (map row_y vecs))
                         (filled sentinel (map row_z vecs)) pp)
      end
  end.

End Service.

(** The bodies of the script and the identifier each is queried by. *)
Inductive body : Type :=
| Comet
| Planet (name : string).

Definition bodies : list body := Comet :: map Planet (Py.keys planet_ids).

Definition body_id (b : body) : Py.result string :=
  match b with
  | Comet => inr obj_id
  | Planet name => Py.get planet_ids name
  end.

(** What [filled] leaves in place of one entry. *)
Definition fill_entry (e : masked) : float :=
  if is_masked e then sentinel else stored e.

(** The epochs argument every query of the script carries. *)
Definition script_epochs : epochs_arg := mkepochs start_date stop_date step_size.

(** The column of table [t] named by [axis]. *)
Definition column (axis : string) (t : table) : Py.result (list masked) :=
  if String.eqb axis "x" then inr (map row_x t)
  else if String.eqb axis "y" then inr (map row_y t)
  else if String.eqb axis "z" then inr (map row_z t)
  else inl (Py.KeyError axis).

Definition axes : list string := ["x"; "y"; "z"]%string.

(** The array the script holds for a body and an axis: the comet's are
    the globals [x], [y], [z]; a planet's sit in [planet_positions]. *)
Definition comet_array (d : fetched) (axis : string) : Py.result (list float) :=
  if String.eqb axis "x" then inr (x d)
  else if String.eqb axis "y" then inr (y d)
  else if String.eqb axis "z" then inr (z d)
  else inl (Py.KeyError axis).

Definition planet_array (d : fetched) (planet axis : string)
  : Py.result (list float) :=
  match Py.get (planet_positions d) planet with
  | inl e => inl e
  | inr pos => Py.get pos axis
  end.

(** A two-epoch answer with one masked sample, for concrete runs. *)
Definition sample_table : table :=
  [mkrow 2460980.5 (mkmasked 0 true) (mkmasked 1.5 false)
         (mkmasked 0.25 false);
   mkrow 2460982.5 (mkmasked (-1.25) false) (mkmasked 1.75 false)
         (mkmasked 0.5 false)]%float.

Definition sample_vectors (q : query) : Py.result table := inr sample_table.

Definition sample_grid (ep : epochs_arg) : list float :=
  [2460980.5; 2460982.5]%float.

Definition body_array (d : fetched) (b : body) (axis : string)
  : Py.result (list float) :=
  match b with
  | Comet => comet_array d axis
  | Planet name => planet_array d name axis
  end.

End Ephemeris.

(** ** Plot artists and the Animator (lines 72-81, 102-119) *)

Module Animator.
Import Ephemeris.

(** A 3-D line artist: the x and y data last given to [set_data] and the
    z data last given to [set_3d_properties].  matplotlib broadcasts the
    z data to the length of the x data; the script always passes z data
    of that length (slices or samples of the columns of one table), where
    the broadcast changes nothing. *)
Record artist : Type := mkartist {
  xdata : list float;
  ydata : list float;
  zdata : list float
}.

Definition empty_artist : artist := mkartist [] [] [].

(** The artist objects the script names. *)
Inductive artist_ref : Type :=
| line
| comet_marker
| planet_marker (planet : string).

(** The module-level state [update] runs in: the fetched arrays and the
    animated artists. *)
Record world : Type := mkworld {
  data : fetched;
  line_artist : artist;
  comet_marker_artist : artist;
  planet_markers : Py.dict artist
}.

(** Lines 73-81, after a fetch that returned [d]. *)
Definition init_world (d : fetched) : world :=
  mkworld d empty_artist empty_artist
    [("Earth", empty_artist); ("Mars", empty_artist);
     ("Jupiter", empty_artist)]%string.

(** Statements: they run in the world, may raise, and leave the world as
    it was when they raised. *)
Definition M (A : Type) : Type := world -> Py.result A * world.

Definition ret {A} (a : A) : M A := fun w => (inr a, w).

Definition bind {A B} (m : M A) (f : A -> M B) : M B :=
  fun w =>
    match m w with
    | (inl e, w') => (inl e, w')
    | (inr a, w') => f a w'
    end.

Definition lift {A} (r : Py.result A) : M A := fun w => (r, w).

Definition gets {A} (f : world -> A) : M A := fun w => (inr (f w), w).

Notation "v <- m ;; k" := (bind m (fun v => k))
  (at level 61, m at next level, right associativity).
Notation "m ;;; k" := (bind m (fun _ => k))
  (at level 61, right associativity).

Definition get_artist (r : artist_ref) : M artist :=
  fun w =>
    match r with
    | line => (inr (line_artist w), w)
    | comet_marker => (inr (comet_marker_artist w), w)
    | planet_marker p => (Py.get (planet_markers w) p, w)
    end.

Definition put_artist (r : artist_ref) (a : artist) : M unit :=
  fun w =>
    (inr tt,
     match r with
     | line =>
         mkworld (data w) a (comet_marker_artist w) (planet_markers w)
     | comet_marker =>
         mkworld (data w) (line_artist w) a (planet_markers w)
     | planet_marker p =>
         mkworld (data w) (line_artist w) (comet_marker_artist w)
                 (Py.set (planet_markers w) p a)
     end).

Definition set_data (r : artist_ref) (xs ys : list float) : M unit :=
  a <- get_artist r ;;
  put_artist r (mkartist xs ys (zdata a)).

Definition set_3d_properties (r : artist_ref) (zs : list float) : M unit :=
  a <- get_artist r ;;
  put_artist r (mkartist (xdata a) (ydata a) zs).

(** [planet_positions[planet][axis][frame]] *)
Definition planet_coordinate (d : fetched) (planet axis : string) (frame : Z)
  : Py.result float :=
  match planet_array d planet axis with
  | inl e => inl e
  | inr arr => Py.index arr frame
  end.

Definition planet_sample (planet axis : string) (frame : Z) : M float :=
  d <- gets data ;;
  lift (planet_coordinate d planet axis frame).

(** Lines 111-114: the loop over the items of [planet_markers]. *)
Fixpoint update_planets (frame : Z) (planets : list string)
    (artists : list artist_ref) : M (list artist_ref) :=
  match planets with
  | [] => ret artists
  | planet :: rest =>
      px <- planet_sample planet "x" frame ;;
      py <- planet_sample planet "y" frame ;;
      set_data (planet_marker planet) [px] [py] ;;;
      pz <- planet_sample planet "z" frame ;;
      set_3d_properties (planet_marker planet) [pz] ;;;
      update_planets frame rest (artists ++ [planet_marker planet])
  end.

(** Lines 102-116.  The globals [x], [y], [z] are read once: nothing
    assigns them after line 36. *)
Definition update (frame : Z) : M (list artist_ref) :=
  xs <- gets (fun w => x (data w)) ;;
  ys <- gets (fun w => y (data w)) ;;
  zs <- gets (fun w => z (data w)) ;;
  set_data line (Py.slice_to xs (frame + 1)) (Py.slice_to ys (frame + 1)) ;;;
  set_3d_properties line (Py.slice_to zs (frame + 1)) ;;;
  xk <- lift (Py.index xs frame) ;;
  yk <- lift (Py.index ys frame) ;;
  set_data comet_marker [xk] [yk] ;;;
  zk <- lift (Py.index zs frame) ;;
  set_3d_properties comet_marker [zk] ;;;
  markers <- gets planet_markers ;;
  update_planets frame (Py.keys markers) [line; comet_marker].

(** Line 119: [frames=len(x)] makes the frame source [range(len(x))]. *)
Definition ani_frames (w : world) : list Z := Py.range (Py.len (x (data w))).

(** The frames the driver calls [update] with: the first frame once when
    the animation is initialised (the script gives no [init_func]), then
    every frame of the source in order, once per pass -- one pass for
    [ani.save], one more for each cycle [plt.show] plays. *)
Definition driver_calls (frames : list Z) (passes : nat) : list Z :=
  firstn 1 frames ++ List.concat (repeat frames passes).

(** One call of [update] per frame, in order; an exception ends the
    run. *)
Fixpoint run (frames : list Z) : M (list (list artist_ref)) :=
  match frames with
  | [] => ret []
  | frame :: rest =>
      artists <- update frame ;;
      more <- run rest ;;
      ret (artists :: more)
  end.

Definition animate (passes : nat) : M (list (list artist_ref)) :=
  frames <- gets ani_frames ;;
  run (driver_calls frames passes).

(** Every body's three arrays have the length of the comet's [x]. *)
Definition array_aligned (n : nat) (pos : Py.dict (list float)) : Prop :=
  forall axis, In axis axes ->
    exists arr, Py.get pos axis = inr arr /\ List.length arr = n.

Definition aligned (d : fetched) : Prop :=
  List.length (y d) = List.length (x d) /\
  List.length (z d) = List.length (x d) /\
  forall planet, In planet (Py.keys planet_ids) ->
    exists pos, Py.get (planet_positions d) planet = inr pos /\
                array_aligned (List.length (x d)) pos.

(** The marker dict holds the three planets of lines 77-81, in order. *)
Definition script_markers (w : world) : Prop :=
  Py.keys (planet_markers w) = Py.keys planet_ids.

(** The artists of the script, in the order lines 110-114 collect them. *)
Definition all_artists : list artist_ref :=
  [line; comet_marker;
   planet_marker "Earth"; planet_marker "Mars"; planet_marker "Jupiter"].

(** Sample [k] of a planet's array, 0 when there is none. *)
Definition sample_at (d : fetched) (planet axis : string) (k : nat) : float :=
  match planet_array d planet axis with
  | inr arr => nth k arr 0%float
  | inl _ => 0%float
  end.

(** A one-point marker at sample [k] of a planet. *)
Definition marker_at (d : fetched) (planet : string) (k : nat) : artist :=
  mkartist [sample_at d planet "x" k] [sample_at d planet "y" k]
           [sample_at d planet "z" k].

(** The world the specification describes at frame [k]: the path is the
    first [k + 1] samples, every marker sits at sample [k]. *)
Definition frame_world (d : fetched) (k : nat) : world :=
  mkworld d
    (mkartist (firstn (S k) (x d)) (firstn (S k) (y d)) (firstn (S k) (z d)))
    (mkartist [nth k (x d) 0%float] [nth k (y d) 0%float]
              [nth k (z d) 0%float])
    (map (fun planet => (planet, marker_at d planet k)) (Py.keys planet_ids)).

(** A statement leaves the observation [f] of the world as it was,
    whether it returns or raises. *)
Definition preserves {A B} (f : world -> A) (m : M B) : Prop :=
  forall w, f (snd (m w)) = f w.

(** The arrays of the sample answer, fetched. *)
Definition sample_data : fetched :=
  match fetch sample_vectors with
  | inr d => d
  | inl _ => mkfetched [] [] [] []
  end.

End Animator.

(** ** Scene Builder (lines 58-70) *)

Module Scene.
Import Ephemeris.

(** A call of [ax.plot] or [ax.scatter] with the coordinates it is
    given. *)
Inductive draw : Type :=
| plot (xs ys zs : list float) (label : string)
| scatter (px py pz : float) (label : string).

Definition np_pi : float := 3.141592653589793%float.

Definition of_nat (n : nat) : float :=
  PrimFloat.of_uint63 (Uint63.of_Z (Z.of_nat n)).

(** [np.linspace(start, stop, num)] with the end point included: [num - 1]
    equal steps from [start], the last sample set to [stop] itself; a
    single sample has no step and is [0 * (stop - start) + start]. *)
Definition linspace (start stop : float) (num : nat) : list float :=
  let div := of_nat (num - 1) in
  let delta := (stop - start)%float in
  let step := (delta / div)%float in
  let at_ (i : nat) : float :=
    if (step =? 0)%float then (of_nat i / div * delta + start)%float
    else (of_nat i * step + start)%float in
  match num with
  | O => []
  | S O => [(of_nat 0 * delta + start)%float]
  | S n => map at_ (seq 0 n) ++ [stop]
  end.

Definition zeros_like (a : list float) : list float :=
  map (fun _ => 0%float) a.

(** [r * a] for a scalar [r] and an array [a]. *)
Definition scale (r : float) (a : list float) : list float :=
  map (fun v => (r * v)%float) a.

Definition mars_r : float := 1.35%float.
Definition jup_r : float := 5.2%float.

Section Trig.

(** numpy's element-wise cosine and sine on binary64. *)
Variables np_cos np_sin : float -> float.

Definition theta : list float := linspace 0 (2 * np_pi) 100.

(** Lines 60-67: the draws that take no fetched value. *)
Definition static_draws : list draw :=
  [plot (map np_cos theta) (map np_sin theta) (zeros_like theta)
        "Earth Orbit";
   plot (scale mars_r (map np_cos theta)) (scale mars_r (map np_sin theta))
        (zeros_like theta) "Mars Orbit";
   plot (scale jup_r (map np_cos theta)) (scale jup_r (map np_sin theta))
        (zeros_like theta) "Jupiter Orbit (scaled)";
   scatter 0 0 0 "Sun"].

(** Line 70: the highlighted sample; each index may raise. *)
Definition highlight (d : fetched) : Py.result draw :=
  match DateIndex.nov1_index with
  | inl e => inl e
  | inr i =>
      match Py.index (x d) i with
      | inl e => inl e
      | inr hx =>
          match Py.index (y d) i with
          | inl e => inl e
          | inr hy =>
              match Py.index (z d) i with
              | inl e => inl e
              | inr hz => inr (scatter hx hy hz "Position on Nov 1, 2025")
              end
          end
      end
  end.

(** Lines 58-70: the draws issued, and the exception that ended them if
    one was raised. *)
Definition scene (d : fetched) : list draw * option Py.exn :=
  match highlight d with
  | inl e => (static_draws, Some e)
  | inr h => (static_draws ++ [h], None)
  end.

(** The dashed reference curves among a list of draws. *)
Definition curves (ds : list draw) : list draw :=
  filter (fun c => match c with plot _ _ _ _ => true | _ => false end) ds.

(** The circle of radius [r] in the plane z = 0, sampled at [theta]. *)
Definition circle (r : float) (label : string) : draw :=
  plot (map (fun t => (r * np_cos t)%float) theta)
       (map (fun t => (r * np_sin t)%float) theta)
       (map (fun _ => 0%float) theta) label.

End Trig.

End Scene.

(** ** The script as a whole (lines 32-131) *)

Module Script.
Import Ephemeris Animator Scene.

(** An entry with its mask dropped and the number [filled] would leave. *)
Definition unmask (e : masked) : masked := mkmasked (fill_entry e) false.

Definition unmask_row (r : row) : row :=
  mkrow (datetime_jd r) (unmask (row_x r)) (unmask (row_y r))
        (unmask (row_z r)).

Definition unmask_answer (a : Py.result table) : Py.result table :=
  match a with
  | inl e => inl e
  | inr t => inr (map unmask_row t)
  end.

(** The identifiers queried, in the order of the queries. *)
Definition query_ids : list string := obj_id :: map snd planet_ids.

(** A service with no sample in the range, and one that fails on Mars. *)
Definition empty_vectors (q : query) : Py.result table := inr [].

Definition failing_vectors (q : query) : Py.result table :=
  if String.eqb (q_id q) "499" then inl (Py.ServiceError "timeout")
  else inr sample_table.

Section Run.

Variable vectors : query -> Py.result table.
Variables np_cos np_sin : float -> float.

(** The statements of the script in order: the fetch, the static scene
    with the highlight, the artists, then the calls the driver makes.
    An exception ends the script.  The result is what was drawn, the
    artists each call returned and the final world. *)
Definition script (passes : nat)
  : Py.result (list draw * list (list artist_ref) * world) :=
  match fetch vectors with
  | inl e => inl e
  | inr d =>
      match scene np_cos np_sin d with
      | (_, Some e) => inl e
      | (draws, None) =>
          match animate passes (init_world d) with
          | (inl e, _) => inl e
          | (inr frames, w) => inr (draws, frames, w)
          end
      end
  end.

End Run.

End Script.

(** ** Console output (lines 146-148) *)

Module Console.
Import Ephemeris.


(** [v**2] on a binary64 scalar: the square, rounded once. *)
Definition square (v : float) : float := (v * v)%float.

(** [np.sqrt(px**2 + py**2 + pz**2)]: every operation is a binary64
    operation, rounded to nearest. *)
Definition distance (px py pz : float) : float :=
  PrimFloat.sqrt (square px + square py + square pz).



(** The rational number a finite binary64 number stands for. *)
Definition rational_of (v : float) : option Q :=
  match Prim2SF v with
  | SpecFloat.S754_zero _ => Some 0%Q
  | SpecFloat.S754_finite s m e =>
      Some ((if s then -1 else 1) * inject_Z (Zpos m) * 2 ^ e)%Q
  | _ => None
  end.

(** The spec's words: [v] is the Euclidean norm of the point
    [(px, py, pz)], the non-negative number whose square is the sum of
    the squares of the coordinates. *)
Definition is_euclidean_norm (v px py pz : float) : Prop :=
  match rational_of v, rational_of px, rational_of py, rational_of pz with
  | Some qv, Some qx, Some qy, Some qz =>
      (0 <= qv)%Q /\ (qv * qv == qx * qx + qy * qy + qz * qz)%Q
  | _, _, _, _ => False
  end.

End Console.

(** * Properties *)

(** ** Python sequences *)

Lemma index_nth {A} (l : list A) (k : nat) (dflt : A) :
  (k < List.length l)%nat -> Py.index l (Z.of_nat k) = inr (nth k l dflt).
Proof.
  intros Hk. unfold Py.index, Py.len.
  destruct (Z.of_nat k <? 0) eqn:Hneg; [apply Z.ltb_lt in Hneg; lia|].
  rewrite Hneg. cbn [orb].
  destruct (Z.of_nat (List.length l) <=? Z.of_nat k) eqn:Hle;
    [apply Z.leb_le in Hle; lia|].
  rewrite Nat2Z.id, (nth_error_nth' l dflt Hk). reflexivity.
Qed.

Lemma index_out_of_range {A} (l : list A) (k : Z) :
  Py.len l <= k -> Py.index l k = inl Py.IndexError.
Proof.
  intros Hk. unfold Py.index.
  assert (H0 : 0 <= Py.len l) by (unfold Py.len; lia).
  destruct (k <? 0) eqn:Hneg; [apply Z.ltb_lt in Hneg; lia|].
  destruct (k <? 0) eqn:Hneg'; [discriminate|].
  replace (Py.len l <=? k) with true by (symmetry; apply Z.leb_le; lia).
  reflexivity.
Qed.

Lemma slice_to_firstn {A} (l : list A) (k : nat) :
  Py.slice_to l (Z.of_nat k + 1) = firstn (S k) l.
Proof.
  unfold Py.slice_to, Py.len.
  destruct (Z.of_nat k + 1 <? 0) eqn:Hneg; [apply Z.ltb_lt in Hneg; lia|].
  destruct (Nat.le_gt_cases (S k) (List.length l)) as [Hin | Hout].
  - rewrite Z.min_l by lia. f_equal. lia.
  - rewrite Z.min_r by lia. rewrite Nat2Z.id.
    rewrite !firstn_all2 by lia. reflexivity.
Qed.

Lemma range_spec (n : nat) :
  Py.range (Z.of_nat n) = map Z.of_nat (seq 0 n).
Proof. unfold Py.range. rewrite Nat2Z.id. reflexivity. Qed.

Lemma in_range_bounds (n k : Z) : In k (Py.range n) -> 0 <= k <= n - 1.
Proof.
  unfold Py.range. intros Hin. apply in_map_iff in Hin.
  destruct Hin as [i [<- Hi]]. apply in_seq in Hi. lia.
Qed.

Example index_from_end : Py.index [10; 20; 30] (-1) = inr 30.
Proof. reflexivity. Qed.

Example index_past_end : Py.index [10; 20; 30] 3 = inl Py.IndexError.
Proof. reflexivity. Qed.

Example slice_clamps : Py.slice_to [10; 20; 30] 5 = [10; 20; 30].
Proof. reflexivity. Qed.

(** ** Date Indexer *)

Example strptime_start :
  Calendar.strptime_Y_b_d DateIndex.start_date = inr DateIndex.start_dt.
Proof. reflexivity. Qed.

Example strptime_space_day :
  Calendar.strptime_Y_b_d "2025-Nov- 1" = inr DateIndex.start_dt.
Proof. reflexivity. Qed.

Example linspace_single : Scene.linspace 0 1 1 = [0%float].
Proof. reflexivity. Qed.

Example strptime_rejects : Calendar.strptime_Y_b_d "2025-Nov-31" = inl Py.ValueError.
Proof. reflexivity. Qed.

Example range_in_days :
  Calendar.days_between (Calendar.mkdate 2026 3 28) DateIndex.start_dt = 147.
Proof. reflexivity. Qed.

Lemma int_of_true_div_2 (n : Z) :
  DateIndex.int_of (DateIndex.true_div n 2) = Z.quot n 2.
Proof.
  unfold DateIndex.int_of, DateIndex.true_div. cbn.
  rewrite Z.mul_1_r. reflexivity.
Qed.

Lemma quot_2_floor (n : Z) :
  Z.quot n 2 = n / 2 + (if (n <? 0) && Z.odd n then 1 else 0).
Proof.
  pose proof (Z.quot_rem' n 2) as Hq.
  pose proof (Z.div_mod n 2 ltac:(lia)) as Hd.
  pose proof (Z.mod_pos_bound n 2 ltac:(lia)) as Hm.
  rewrite Zodd_mod.
  destruct (n <? 0) eqn:Hneg; cbn [andb].
  - apply Z.ltb_lt in Hneg.
    pose proof (Z.rem_bound_pos_neg n 2 ltac:(lia) ltac:(lia)) as Hr.
    destruct (Z.eqb_spec (n mod 2) 1); lia.
  - apply Z.ltb_ge in Hneg.
    pose proof (Z.rem_bound_pos n 2 Hneg ltac:(lia)) as Hr. lia.
Qed.

(** C1, as stated, fails one day before the start: the quotient -1/2
    truncates to 0, its floor is -1. *)
Lemma date_index_not_floor :
  DateIndex.date_index (Calendar.mkdate 2025 10 31) DateIndex.start_dt
    <> DateIndex.floor_index (Calendar.mkdate 2025 10 31) DateIndex.start_dt 2.
Proof. vm_compute. discriminate. Qed.

(** C1 (amended): with start 2025-11-01 and a step of 2 days the index of
    a target is [(target - start) / 2] truncated toward zero, a function
    of the target alone and with no bounds check.  It is the floor of the
    quotient for every target on or after the start (also past the stop
    date), and the floor plus one for a target an odd number of days
    before the start.  The script's own target 2025-11-01 has index 0. *)
Theorem date_index_truncates (target : Calendar.date) :
  let days := Calendar.days_between target DateIndex.start_dt in
  DateIndex.date_index target DateIndex.start_dt = Z.quot days 2 /\
  DateIndex.date_index target DateIndex.start_dt
    = DateIndex.floor_index target DateIndex.start_dt 2
      + (if (days <? 0) && Z.odd days then 1 else 0) /\
  (0 <= days ->
   DateIndex.date_index target DateIndex.start_dt
     = DateIndex.floor_index target DateIndex.start_dt 2) /\
  DateIndex.nov1_index = inr 0.
Proof.
  cbv zeta. unfold DateIndex.date_index, DateIndex.floor_index.
  rewrite int_of_true_div_2.
  set (days := Calendar.days_between target DateIndex.start_dt).
  repeat split.
  - apply quot_2_floor.
  - intros Hpos. rewrite quot_2_floor.
    replace (days <? 0) with false by (symmetry; apply Z.ltb_ge; exact Hpos).
    cbn [andb]. lia.
Qed.

(** A target past the stop date: 2026-12-25 is 419 days after the start
    and gets index 209, far beyond the 74 fetched samples. *)
Lemma date_index_truncates_witness :
  0 <= Calendar.days_between (Calendar.mkdate 2026 12 25) DateIndex.start_dt /\
  DateIndex.date_index (Calendar.mkdate 2026 12 25) DateIndex.start_dt = 209.
Proof.
  split; [vm_compute; discriminate|].
  destruct (date_index_truncates (Calendar.mkdate 2026 12 25))
    as [_ [_ [Hfloor _]]].
  rewrite Hfloor; [reflexivity | vm_compute; discriminate].
Defined.

(** ** Scene Builder *)

(** Multiplying a binary64 number by 1.0 is exact: the product of the
    significands is the other significand shifted left by 52 bits, and
    rounding shifts it back without a remainder. *)

Lemma shr_52 (m : positive) :
  SpecFloat.iter_pos SpecFloat.shr_1 52
    (SpecFloat.shr_record_of_loc (Zpos (4503599627370496 * m))
       SpecFloat.loc_Exact)
  = {| SpecFloat.shr_m := Zpos m;
       SpecFloat.shr_r := false;
       SpecFloat.shr_s := false |}.
Proof. reflexivity. Qed.

Lemma digits2_shl_52 (m : positive) :
  SpecFloat.Zdigits2 (Zpos (4503599627370496 * m))
  = Zpos (SpecFloat.digits2_pos m) + 52.
Proof.
  unfold SpecFloat.Zdigits2.
  change (4503599627370496 * m)%positive
    with (Pos.iter xO m 52%positive).
  cbn [Pos.iter SpecFloat.digits2_pos]. lia.
Qed.

Lemma float_mul_1_l (v : float) : (1 * v)%float = v.
Proof.
  apply Prim2SF_inj. rewrite mul_spec.
  pose proof (Prim2SF_valid v) as Hv.
  change (Prim2SF 1) with (SpecFloat.S754_finite false 4503599627370496 (-52)).
  destruct (Prim2SF v) as [s | s | | s m e]; try reflexivity.
  unfold SpecFloat.valid_binary, SpecFloat.bounded in Hv.
  apply andb_prop in Hv. destruct Hv as [Hcanon Hemax].
  unfold SpecFloat.canonical_mantissa in Hcanon.
  apply Z.eqb_eq in Hcanon.
  unfold SF64mul, SpecFloat.SFmul. cbn [xorb].
  unfold SpecFloat.binary_round_aux.
  unfold SpecFloat.shr_fexp at 1.
  rewrite digits2_shl_52.
  replace (Zpos (SpecFloat.digits2_pos m) + 52 + (-52 + e))
    with (Zpos (SpecFloat.digits2_pos m) + e) by lia.
  rewrite Hcanon.
  replace (e - (-52 + e)) with 52 by lia.
  unfold SpecFloat.shr at 1. rewrite shr_52.
  cbn [SpecFloat.loc_of_shr_record SpecFloat.shr_m SpecFloat.shr_r
       SpecFloat.shr_s SpecFloat.round_nearest_even].
  replace (-52 + e + 52) with e by lia.
  unfold SpecFloat.shr_fexp, SpecFloat.Zdigits2.
  rewrite Hcanon, Z.sub_diag.
  cbn [SpecFloat.shr SpecFloat.shr_m SpecFloat.shr_record_of_loc].
  rewrite Hemax. reflexivity.
Qed.

Lemma scale_map (r : float) (f : float -> float) (l : list float) :
  Scene.scale r (map f l) = map (fun t => (r * f t)%float) l.
Proof. unfold Scene.scale. apply map_map. Qed.

Lemma unit_radius (f : float -> float) (l : list float) :
  map f l = map (fun t => (1 * f t)%float) l.
Proof. apply map_ext. intros t. symmetry. apply float_mul_1_l. Qed.

Lemma circle_flat (np_cos np_sin : float -> float) (r : float)
    (label label' : string) (xs ys zs : list float) :
  Scene.circle np_cos np_sin r label = Scene.plot xs ys zs label' ->
  Forall (fun v => v = 0%float) zs.
Proof.
  unfold Scene.circle. generalize Scene.theta. intros th H.
  injection H as _ _ <- _.
  induction th as [|t th IH]; constructor; [reflexivity | exact IH].
Qed.

Lemma curves_scene (np_cos np_sin : float -> float) (d : Ephemeris.fetched) :
  Scene.curves (fst (Scene.scene np_cos np_sin d))
  = Scene.curves (Scene.static_draws np_cos np_sin).
Proof.
  unfold Scene.scene, Scene.highlight.
  destruct DateIndex.nov1_index as [e | i]; [reflexivity|].
  destruct (Py.index (Ephemeris.x d) i); [reflexivity|].
  destruct (Py.index (Ephemeris.y d) i); [reflexivity|].
  destruct (Py.index (Ephemeris.z d) i); reflexivity.
Qed.

(** C7: whatever was fetched, the reference curves drawn by the scene
    are the circles of radius 1.0 (Earth), 1.35 (Mars) and 5.2 (Jupiter)
    sampled at the same 100 angles, with every z coordinate equal to 0;
    the radii are the script's constants. *)
Theorem reference_orbits_fixed
    (np_cos np_sin : float -> float) (d : Ephemeris.fetched) :
  Scene.curves (fst (Scene.scene np_cos np_sin d))
  = [Scene.circle np_cos np_sin 1.0 "Earth Orbit";
     Scene.circle np_cos np_sin 1.35 "Mars Orbit";
     Scene.circle np_cos np_sin 5.2 "Jupiter Orbit (scaled)"]
  /\ List.length (Scene.theta) = 100%nat
  /\ forall xs ys zs label,
       In (Scene.plot xs ys zs label)
          (Scene.curves (fst (Scene.scene np_cos np_sin d))) ->
       Forall (fun v => v = 0%float) zs.
Proof.
  rewrite curves_scene.
  assert (Hcurves :
    Scene.curves (Scene.static_draws np_cos np_sin)
    = [Scene.circle np_cos np_sin 1.0 "Earth Orbit";
       Scene.circle np_cos np_sin 1.35 "Mars Orbit";
       Scene.circle np_cos np_sin 5.2 "Jupiter Orbit (scaled)"]).
  { unfold Scene.static_draws, Scene.curves, Scene.circle. cbn [filter].
    rewrite !scale_map. unfold Scene.zeros_like.
    rewrite (unit_radius np_cos), (unit_radius np_sin). reflexivity. }
  rewrite Hcurves. split; [reflexivity|]. split; [reflexivity|].
  intros xs ys zs label Hin. cbn [In] in Hin.
  destruct Hin as [H | [H | [H | []]]];
    exact (circle_flat _ _ _ _ _ _ _ _ H).
Qed.

(** ** Ephemeris Fetcher *)

Lemma filled_length (fill : float) (a : list Ephemeris.masked) :
  List.length (Ephemeris.filled fill a) = List.length a.
Proof. unfold Ephemeris.filled. apply length_map. Qed.

Lemma filled_nth_error (a : list Ephemeris.masked) (i : nat)
    (e : Ephemeris.masked) :
  nth_error a i = Some e ->
  nth_error (Ephemeris.filled Ephemeris.sentinel a) i
  = Some (Ephemeris.fill_entry e).
Proof.
  intros He. unfold Ephemeris.filled.
  rewrite nth_error_map, He. reflexivity.
Qed.

Section FetchFacts.
Import Ephemeris.

Variable vectors : query -> Py.result table.

(** A fetch that returned made four queries, each answered by a table,
    and holds the filled columns of those tables. *)
Lemma fetch_inv (d : fetched) :
  fetch vectors = inr d ->
  exists tc te tm tj,
    vectors (Horizons obj_id) = inr tc /\
    vectors (Horizons "399") = inr te /\
    vectors (Horizons "499") = inr tm /\
    vectors (Horizons "599") = inr tj /\
    d = mkfetched (filled sentinel (map row_x tc))
                  (filled sentinel (map row_y tc))
                  (filled sentinel (map row_z tc))
                  [("Earth", positions_of te); ("Mars", positions_of tm);
                   ("Jupiter", positions_of tj)]%string.
Proof.
  unfold fetch, planet_ids. cbn [fetch_planets].
  destruct (vectors (Horizons obj_id)) as [e | tc]; [discriminate|].
  destruct (vectors (Horizons "399")) as [e | te]; [discriminate|].
  destruct (vectors (Horizons "499")) as [e | tm]; [discriminate|].
  destruct (vectors (Horizons "599")) as [e | tj]; [discriminate|].
  cbn. intros H. injection H as <-.
  exists tc, te, tm, tj. repeat split; reflexivity.
Qed.

(** The fetch raises only when a query does. *)
Lemma fetch_returns :
  (forall b, In b bodies ->
     exists id t, body_id b = inr id /\ vectors (Horizons id) = inr t) ->
  exists d, fetch vectors = inr d.
Proof.
  intros Hq. unfold fetch, planet_ids. cbn [fetch_planets].
  destruct (Hq Comet) as [idc [tc [Hidc Htc]]]; [cbn; tauto|].
  destruct (Hq (Planet "Earth")) as [ide [te [Hide Hte]]]; [cbn; tauto|].
  destruct (Hq (Planet "Mars")) as [idm [tm [Hidm Htm]]]; [cbn; tauto|].
  destruct (Hq (Planet "Jupiter")) as [idj [tj [Hidj Htj]]]; [cbn; tauto|].
  cbn in Hidc, Hide, Hidm, Hidj.
  injection Hidc as <-. injection Hide as <-.
  injection Hidm as <-. injection Hidj as <-.
  rewrite Htc, Hte, Htm, Htj. eexists. reflexivity.
Qed.

(** Each array of a body is the filled column of the table its query
    returned. *)
Lemma body_array_filled (d : fetched) (b : body) (axis : string) :
  fetch vectors = inr d -> In b bodies -> In axis axes ->
  exists id t col,
    body_id b = inr id /\ vectors (Horizons id) = inr t /\
    column axis t = inr col /\
    body_array d b axis = inr (filled sentinel col).
Proof.
  intros Hfetch Hb Haxis.
  destruct (fetch_inv d Hfetch) as [tc [te [tm [tj [Hc [He [Hm [Hj ->]]]]]]]].
  cbn in Hb, Haxis.
  destruct Hb as [<- | [<- | [<- | [<- | []]]]];
    destruct Haxis as [<- | [<- | [<- | []]]];
    (eexists; eexists; eexists;
     split; [reflexivity|]; split; [eassumption|];
     split; reflexivity).
Qed.

End FetchFacts.

(** C5: for each of the four bodies and each axis, the array the script
    holds has one entry per entry of the fetched column, equal to 1e10
    where the column's entry is masked and to the stored number where it
    is not; and the fetch returns whenever the four queries return,
    whatever is masked. *)
Theorem masked_samples_filled
    (vectors : Ephemeris.query -> Py.result Ephemeris.table) :
  ((forall b, In b Ephemeris.bodies ->
      exists id t, Ephemeris.body_id b = inr id /\
                   vectors (Ephemeris.Horizons id) = inr t) ->
   exists d, Ephemeris.fetch vectors = inr d) /\
  forall d b axis,
    Ephemeris.fetch vectors = inr d ->
    In b Ephemeris.bodies -> In axis Ephemeris.axes ->
    exists id t col arr,
      Ephemeris.body_id b = inr id /\
      vectors (Ephemeris.Horizons id) = inr t /\
      Ephemeris.column axis t = inr col /\
      Ephemeris.body_array d b axis = inr arr /\
      List.length arr = List.length col /\
      forall i e, nth_error col i = Some e ->
        nth_error arr i
        = Some (if Ephemeris.is_masked e then 1e10%float
                else Ephemeris.stored e).
Proof.
  split; [apply fetch_returns|].
  intros d b axis Hfetch Hb Haxis.
  destruct (body_array_filled vectors d b axis Hfetch Hb Haxis)
    as [id [t [col [Hid [Ht [Hcol Harr]]]]]].
  exists id, t, col, (Ephemeris.filled Ephemeris.sentinel col).
  repeat (split; [assumption|]).
  split; [apply filled_length|].
  intros i e He. apply filled_nth_error. exact He.
Qed.

Lemma masked_samples_filled_witness :
  exists d arr,
    Ephemeris.fetch Ephemeris.sample_vectors = inr d /\
    Ephemeris.body_array d Ephemeris.Comet "x" = inr arr /\
    nth_error arr 0 = Some 1e10%float /\
    nth_error arr 1 = Some (-1.25)%float.
Proof.
  destruct (masked_samples_filled Ephemeris.sample_vectors) as [Hret Hfill].
  destruct Hret as [d Hd].
  { intros b Hb. cbn in Hb.
    destruct Hb as [<- | [<- | [<- | [<- | []]]]];
      eexists; eexists; split; reflexivity. }
  destruct (Hfill d Ephemeris.Comet "x"%string Hd)
    as [id [t [col [arr [_ [Ht [Hcol [Harr [_ Hnth]]]]]]]]];
    [cbn; tauto | cbn; tauto |].
  injection Ht as <-. injection Hcol as <-.
  exists d, arr. split; [exact Hd|]. split; [exact Harr|].
  split; [exact (Hnth 0%nat _ eq_refl) | exact (Hnth 1%nat _ eq_refl)].
Defined.

Lemma column_length (axis : string) (t : Ephemeris.table)
    (col : list Ephemeris.masked) :
  Ephemeris.column axis t = inr col -> List.length col = List.length t.
Proof.
  unfold Ephemeris.column. intros H.
  destruct (String.eqb axis "x"); [injection H as <-; apply length_map|].
  destruct (String.eqb axis "y"); [injection H as <-; apply length_map|].
  destruct (String.eqb axis "z"); [injection H as <-; apply length_map|].
  discriminate.
Qed.

Lemma column_nth_error (axis : string) (t : Ephemeris.table)
    (col : list Ephemeris.masked) (i : nat) (r : Ephemeris.row) :
  Ephemeris.column axis t = inr col -> nth_error t i = Some r ->
  exists e, Ephemeris.column axis [r] = inr [e] /\ nth_error col i = Some e.
Proof.
  unfold Ephemeris.column. intros H Hr.
  destruct (String.eqb axis "x");
    [injection H as <-; eexists; split;
     [reflexivity | rewrite nth_error_map, Hr; reflexivity]|].
  destruct (String.eqb axis "y");
    [injection H as <-; eexists; split;
     [reflexivity | rewrite nth_error_map, Hr; reflexivity]|].
  destruct (String.eqb axis "z");
    [injection H as <-; eexists; split;
     [reflexivity | rewrite nth_error_map, Hr; reflexivity]|].
  discriminate.
Qed.

Section GridFacts.
Import Ephemeris.

Variable vectors : query -> Py.result table.
Variable grid : epochs_arg -> list float.

(** The service samples every body at the epochs its [epochs] argument
    names: the epoch column of an answer is a function of that argument
    alone. *)
Hypothesis same_grid :
  forall q t, vectors q = inr t -> map datetime_jd t = grid (q_epochs q).

Lemma table_length (id : string) (t : table) :
  vectors (Horizons id) = inr t ->
  List.length t = List.length (grid script_epochs).
Proof.
  intros Ht. apply same_grid in Ht. cbn in Ht.
  fold script_epochs in Ht. rewrite <- Ht. symmetry. apply length_map.
Qed.

Lemma fetch_aligned (d : fetched) :
  fetch vectors = inr d ->
  List.length (x d) = List.length (grid script_epochs) /\ Animator.aligned d.
Proof.
  intros Hfetch.
  destruct (fetch_inv vectors d Hfetch)
    as [tc [te [tm [tj [Hc [He [Hm [Hj ->]]]]]]]].
  apply table_length in Hc, He, Hm, Hj.
  unfold Animator.aligned. cbn [x y z planet_positions].
  rewrite !filled_length, !length_map.
  split; [exact Hc|]. split; [reflexivity|]. split; [reflexivity|].
  intros p Hp. cbn in Hp.
  destruct Hp as [<- | [<- | [<- | []]]];
    (eexists; split; [reflexivity|]);
    intros axis Haxis; cbn in Haxis;
    destruct Haxis as [<- | [<- | [<- | []]]];
    (eexists; split; [reflexivity|]);
    rewrite filled_length, length_map; congruence.
Qed.

End GridFacts.

(** C6: when the service samples every body at the epochs named by the
    query's start, stop and step, the arrays of one fetch -- the comet's
    x, y, z and each planet's x, y, z -- all have the length N of that
    epoch sequence, and entry i of each array is the filled coordinate of
    the row whose epoch is the i-th of the sequence. *)
Theorem fetched_sequences_aligned
    (vectors : Ephemeris.query -> Py.result Ephemeris.table)
    (grid : Ephemeris.epochs_arg -> list float)
    (same_grid : forall q t, vectors q = inr t ->
                   map Ephemeris.datetime_jd t = grid (Ephemeris.q_epochs q))
    (d : Ephemeris.fetched) :
  Ephemeris.fetch vectors = inr d ->
  let epochs := grid Ephemeris.script_epochs in
  Animator.aligned d /\
  forall b axis, In b Ephemeris.bodies -> In axis Ephemeris.axes ->
    exists id t col arr,
      Ephemeris.body_id b = inr id /\
      vectors (Ephemeris.Horizons id) = inr t /\
      Ephemeris.column axis t = inr col /\
      Ephemeris.body_array d b axis = inr arr /\
      List.length arr = List.length epochs /\
      forall i r, nth_error t i = Some r ->
        nth_error epochs i = Some (Ephemeris.datetime_jd r) /\
        exists e, Ephemeris.column axis [r] = inr [e] /\
                  nth_error arr i = Some (Ephemeris.fill_entry e).
Proof.
  intros Hfetch epochs.
  split; [exact (proj2 (fetch_aligned vectors grid same_grid d Hfetch))|].
  intros b axis Hb Haxis.
  destruct (body_array_filled vectors d b axis Hfetch Hb Haxis)
    as [id [t [col [Hid [Ht [Hcol Harr]]]]]].
  exists id, t, col, (Ephemeris.filled Ephemeris.sentinel col).
  repeat (split; [assumption|]).
  split.
  - rewrite filled_length, (column_length axis t col Hcol).
    exact (table_length vectors grid same_grid id t Ht).
  - intros i r Hr. split.
    + pose proof (same_grid _ _ Ht) as Hgrid. cbn in Hgrid.
      unfold epochs, Ephemeris.script_epochs. rewrite <- Hgrid.
      rewrite nth_error_map, Hr. reflexivity.
    + destruct (column_nth_error axis t col i r Hcol Hr) as [e [He Hi]].
      exists e. split; [exact He|]. apply filled_nth_error. exact Hi.
Qed.

Lemma fetched_sequences_aligned_witness :
  exists d,
    Ephemeris.fetch Ephemeris.sample_vectors = inr d /\
    Animator.aligned d.
Proof.
  eexists. split; [reflexivity|].
  refine (proj1 (fetched_sequences_aligned Ephemeris.sample_vectors
                   Ephemeris.sample_grid _ _ eq_refl)).
  intros q t Ht. injection Ht as <-. reflexivity.
Defined.

(** ** Animator *)

Section AnimatorFacts.
Import Ephemeris Animator.

Lemma planet_coordinate_ok (d : fetched) (planet axis : string) (k : nat) :
  aligned d -> In planet (Py.keys planet_ids) -> In axis axes ->
  (k < List.length (x d))%nat ->
  planet_coordinate d planet axis (Z.of_nat k)
  = inr (sample_at d planet axis k).
Proof.
  intros [_ [_ Hplanets]] Hp Haxis Hk.
  destruct (Hplanets planet Hp) as [pos [Hpos Harrs]].
  destruct (Harrs axis Haxis) as [arr [Harr Hlen]].
  unfold planet_coordinate, sample_at, planet_array.
  rewrite Hpos, Harr.
  rewrite (index_nth arr k 0%float) by lia. reflexivity.
Qed.

(** *** Frame conditions *)

Lemma preserves_ret {A B} (f : world -> A) (b : B) : preserves f (ret b).
Proof. intros w. reflexivity. Qed.

Lemma preserves_lift {A B} (f : world -> A) (r : Py.result B) :
  preserves f (lift r).
Proof. intros w. reflexivity. Qed.

Lemma preserves_gets {A B} (f : world -> A) (g : world -> B) :
  preserves f (gets g).
Proof. intros w. reflexivity. Qed.

Lemma preserves_bind {A B C} (f : world -> A) (m : M B) (k : B -> M C) :
  preserves f m -> (forall b, preserves f (k b)) -> preserves f (bind m k).
Proof.
  intros Hm Hk w. unfold bind. specialize (Hm w).
  destruct (m w) as [[e | b] w']; cbn [snd] in *.
  - exact Hm.
  - rewrite (Hk b w'). exact Hm.
Qed.

Lemma preserves_get_artist {A} (f : world -> A) (r : artist_ref) :
  preserves f (get_artist r).
Proof. intros w. destruct r; reflexivity. Qed.

Lemma put_artist_data (r : artist_ref) (a : artist) :
  preserves data (put_artist r a).
Proof. intros w. destruct r; reflexivity. Qed.

Lemma put_artist_line (r : artist_ref) (a : artist) :
  r <> line -> preserves line_artist (put_artist r a).
Proof. intros Hr w. destruct r; [congruence | reflexivity | reflexivity]. Qed.

Lemma put_artist_comet_marker (r : artist_ref) (a : artist) :
  r <> comet_marker -> preserves comet_marker_artist (put_artist r a).
Proof. intros Hr w. destruct r; [reflexivity | congruence | reflexivity]. Qed.

Create HintDb frame.

Hint Resolve preserves_ret preserves_lift preserves_gets
  preserves_get_artist put_artist_data put_artist_line
  put_artist_comet_marker : frame.
Hint Extern 1 (_ <> _) => discriminate : frame.

(** Walks a statement bind by bind. *)
Ltac frame :=
  repeat first
    [ solve [auto with frame]
    | progress unfold set_data, set_3d_properties, planet_sample
    | apply preserves_bind; [| intros ?] ].

Lemma update_planets_preserves {A} (f : world -> A) (frame : Z) :
  (forall planet a, preserves f (put_artist (planet_marker planet) a)) ->
  forall planets artists, preserves f (update_planets frame planets artists).
Proof.
  intros Hput planets.
  induction planets as [|planet rest IH]; intros artists;
    cbn [update_planets]; frame.
Qed.

Lemma update_preserves_data (k : Z) : preserves data (update k).
Proof.
  unfold update.
  assert (H := update_planets_preserves data k
                 (fun planet a => put_artist_data (planet_marker planet) a)).
  frame.
Qed.

Lemma run_preserves_data (frames : list Z) : preserves data (run frames).
Proof.
  induction frames as [|k rest IH]; cbn [run];
    [apply preserves_ret|].
  apply preserves_bind; [apply update_preserves_data|]. intros artists.
  apply preserves_bind; [exact IH|]. intros more. apply preserves_ret.
Qed.

(** Runs the statements of [update] up to the next index or lookup. *)
Ltac run_update :=
  cbv beta iota zeta delta
    [update update_planets planet_sample bind ret gets lift set_data
     set_3d_properties get_artist put_artist data line_artist comet_marker_artist
     planet_markers xdata ydata zdata Py.keys Py.get Py.set map fst app
     String.eqb Ascii.eqb Bool.eqb planet_ids].

Lemma update_ok (w : world) (k : nat) :
  script_markers w -> aligned (data w) ->
  (k < List.length (x (data w)))%nat ->
  update (Z.of_nat k) w = (inr all_artists, frame_world (data w) k).
Proof.
  intros Hm Ha Hk.
  destruct w as [d la ca pm]. unfold script_markers in Hm. cbn in Hm.
  cbn [data] in Ha, Hk.
  destruct pm as [|[p1 a1] [|[p2 a2] [|[p3 a3] [|]]]]; try discriminate.
  injection Hm as -> -> ->.
  assert (Hy : (k < List.length (y d))%nat) by (destruct Ha as [-> _]; exact Hk).
  assert (Hz : (k < List.length (z d))%nat) by (destruct Ha as [_ [-> _]]; exact Hk).
  pose proof (index_nth (x d) k 0%float Hk) as Hxk.
  pose proof (index_nth (y d) k 0%float Hy) as Hyk.
  pose proof (index_nth (z d) k 0%float Hz) as Hzk.
  assert (Hs : forall planet axis,
             In planet (Py.keys planet_ids) -> In axis axes ->
             planet_coordinate d planet axis (Z.of_nat k)
             = inr (sample_at d planet axis k)).
  { intros planet axis Hp Haxis.
    exact (planet_coordinate_ok d planet axis k Ha Hp Haxis Hk). }
  unfold frame_world, all_artists.
  run_update. rewrite Hxk. run_update. rewrite Hyk. run_update.
  rewrite Hzk. run_update.
  repeat (rewrite Hs by (cbn; tauto); run_update).
  rewrite !slice_to_firstn. reflexivity.
Qed.

Lemma run_ok (d : fetched) (frames : list Z) :
  aligned d -> Forall (fun k => 0 <= k < Py.len (x d)) frames ->
  forall w, data w = d -> script_markers w ->
  run frames w
  = (inr (map (fun _ => all_artists) frames),
     fold_left (fun _ k => frame_world d (Z.to_nat k)) frames w).
Proof.
  intros Ha Hks. induction Hks as [|k ks Hk Hks IH]; intros w Hd Hm.
  - reflexivity.
  - cbn [map run fold_left]. unfold bind at 1. unfold Py.len in Hk.
    replace k with (Z.of_nat (Z.to_nat k)) at 1 by lia.
    rewrite update_ok by (rewrite ?Hd; assumption || lia). rewrite Hd.
    unfold bind at 1. rewrite IH by reflexivity.
    reflexivity.
Qed.

(** The path is set before anything can raise and is not touched after. *)
Lemma update_line (k : Z) (w : world) :
  line_artist (snd (update k w))
  = mkartist (Py.slice_to (x (data w)) (k + 1))
             (Py.slice_to (y (data w)) (k + 1))
             (Py.slice_to (z (data w)) (k + 1)).
Proof.
  assert (Hset : forall (m : M (list artist_ref)) xs ys zs w0,
             preserves line_artist m ->
             line_artist
               (snd ((set_data line xs ys ;;;
                      set_3d_properties line zs ;;; m) w0))
             = mkartist xs ys zs).
  { intros m xs ys zs w0 Hm.
    unfold bind, set_data, set_3d_properties, get_artist, put_artist.
    cbn. rewrite Hm. reflexivity. }
  unfold update.
  unfold bind at 1 2 3. unfold gets at 1 2 3.
  apply Hset.
  assert (H := update_planets_preserves line_artist k
                 (fun planet a =>
                    put_artist_line (planet_marker planet) a
                      ltac:(discriminate))).
  frame.
Qed.

(** The outcome of a call depends on the fetched arrays alone, and a
    call that returns leaves every artist at the same coordinates. *)
Lemma update_same_data (w1 w2 : world) (k : Z) :
  data w1 = data w2 -> script_markers w1 -> script_markers w2 ->
  fst (update k w1) = fst (update k w2) /\
  forall artists, fst (update k w1) = inr artists ->
    artists = all_artists /\ snd (update k w1) = snd (update k w2).
Proof.
  destruct w1 as [d la1 ca1 pm1], w2 as [d2 la2 ca2 pm2].
  unfold script_markers. cbn [data planet_markers]. intros <- Hm1 Hm2.
  cbn in Hm1, Hm2.
  destruct pm1 as [|[p1 a1] [|[p2 a2] [|[p3 a3] [|]]]]; try discriminate.
  injection Hm1 as -> -> ->.
  destruct pm2 as [|[q1 b1] [|[q2 b2] [|[q3 b3] [|]]]]; try discriminate.
  injection Hm2 as -> -> ->.
  run_update.
  repeat
    match goal with
    | |- context [match ?r with inl _ => _ | inr _ => _ end] =>
        destruct r; run_update;
        [split; [reflexivity | intros ? ?; discriminate] |]
    end.
  cbn [fst snd]. split; [reflexivity|].
  intros artists H. injection H as <-. split; reflexivity.
Qed.

(** The marker dict keeps its three keys through a call, returned or
    raised. *)
Lemma update_keeps_markers (w : world) (k : Z) :
  script_markers w -> script_markers (snd (update k w)).
Proof.
  destruct w as [d la ca pm]. unfold script_markers.
  cbn [planet_markers]. intros Hm. cbn in Hm.
  destruct pm as [|[p1 a1] [|[p2 a2] [|[p3 a3] [|]]]]; try discriminate.
  injection Hm as -> -> ->.
  run_update.
  repeat
    match goal with
    | |- context [match ?r with inl _ => _ | inr _ => _ end] =>
        destruct r; run_update; [reflexivity|]
    end.
  reflexivity.
Qed.

Lemma nth_pred_last {A} (l : list A) (n : nat) (dflt : A) :
  List.length l = S n -> nth n l dflt = last l dflt.
Proof.
  revert n. induction l as [|a l IH]; intros n Hlen; [discriminate|].
  destruct l as [|b l].
  - cbn in Hlen. injection Hlen as <-. reflexivity.
  - destruct n as [|n]; [discriminate|].
    change (nth (S n) (a :: b :: l) dflt) with (nth n (b :: l) dflt).
    change (last (a :: b :: l) dflt) with (last (b :: l) dflt).
    apply IH. cbn in Hlen |- *. lia.
Qed.

Lemma driver_calls_in_range (n : Z) (passes : nat) (k : Z) :
  In k (driver_calls (Py.range n) passes) -> In k (Py.range n).
Proof.
  unfold driver_calls. intros Hin. apply in_app_or in Hin.
  destruct Hin as [Hin | Hin].
  - rewrite <- (firstn_skipn 1 (Py.range n)). apply in_or_app. left.
    exact Hin.
  - apply in_concat in Hin. destruct Hin as [fr [Hfr Hk]].
    apply repeat_spec in Hfr. subst fr. exact Hk.
Qed.

(** After a last pass over frames 0 .. n the world is that of frame n. *)
Lemma fold_last_pass (d : fetched) (n passes : nat) (w : world) :
  fold_left (fun _ k => frame_world d (Z.to_nat k))
    (driver_calls (Py.range (Z.of_nat (S n))) (S passes)) w
  = frame_world d n.
Proof.
  unfold driver_calls.
  change (repeat ?a (S passes)) with (a :: repeat a passes).
  rewrite repeat_cons, concat_app, range_spec, seq_S, map_app.
  cbn [List.concat map]. rewrite app_nil_r, !fold_left_app.
  cbn [fold_left plus]. rewrite Nat2Z.id. reflexivity.
Qed.

End AnimatorFacts.

(** Past the last sample the call raises, after the path was set. *)
Example update_past_end :
  let r := Animator.update 2 (Animator.init_world Animator.sample_data) in
  fst r = inl Py.IndexError /\
  Animator.line_artist (snd r)
  = Animator.mkartist [1e10; -1.25]%float [1.5; 1.75]%float
      [0.25; 0.5]%float /\
  Animator.comet_marker_artist (snd r) = Animator.empty_artist.
Proof. repeat split. Qed.

(** C2: at every frame k in [0, N) the call [update(k)] leaves the
    comet's path holding exactly the first k + 1 samples of the comet's
    x, y and z arrays, indices 0 through k. *)
Theorem path_is_prefix (w : Animator.world) (k : Z) :
  0 <= k < Py.len (Ephemeris.x (Animator.data w)) ->
  let n := Z.to_nat k in
  let d := Animator.data w in
  let path := Animator.line_artist (snd (Animator.update k w)) in
  path = Animator.mkartist (firstn (S n) (Ephemeris.x d))
                           (firstn (S n) (Ephemeris.y d))
                           (firstn (S n) (Ephemeris.z d)) /\
  List.length (Animator.xdata path) = S n /\
  (List.length (Ephemeris.y d) = List.length (Ephemeris.x d) ->
   List.length (Animator.ydata path) = S n) /\
  (List.length (Ephemeris.z d) = List.length (Ephemeris.x d) ->
   List.length (Animator.zdata path) = S n).
Proof.
  intros Hk n d path. unfold Py.len in Hk.
  assert (Hpath : path
                  = Animator.mkartist (firstn (S n) (Ephemeris.x d))
                      (firstn (S n) (Ephemeris.y d))
                      (firstn (S n) (Ephemeris.z d))).
  { unfold path. rewrite update_line.
    replace k with (Z.of_nat n) by (unfold n; lia).
    rewrite !slice_to_firstn. reflexivity. }
  rewrite Hpath. cbn [Animator.xdata Animator.ydata Animator.zdata].
  split; [reflexivity|].
  assert (Hn : (S n <= List.length (Ephemeris.x d))%nat)
    by (unfold n, d; lia).
  split; [apply firstn_length_le; exact Hn|].
  split; intros Hlen; apply firstn_length_le; rewrite Hlen; exact Hn.
Qed.

Lemma path_is_prefix_witness :
  Animator.line_artist
    (snd (Animator.update 1 (Animator.init_world Animator.sample_data)))
  = Animator.mkartist [1e10; -1.25]%float [1.5; 1.75]%float
      [0.25; 0.5]%float.
Proof.
  assert (Hk : 0 <= 1
               < Py.len (Ephemeris.x
                   (Animator.data
                      (Animator.init_world Animator.sample_data))))
    by (vm_compute; split; [discriminate | reflexivity]).
  exact (proj1 (path_is_prefix _ 1 Hk)).
Defined.



(** C4: the frame source is 0, 1, ..., N - 1 with N = len(x), and the
    driver calls [update] with frames of that source only, so no call
    gets a frame above N - 1.  When every body's arrays have length N,
    each of those calls returns -- no index it uses is out of range --
    and so does every run of the driver; at frame N - 1, and at the end
    of a run, the comet's marker is the last sample of the comet's
    arrays. *)
Theorem frames_in_range (w : Animator.world) :
  let d := Animator.data w in
  let N := List.length (Ephemeris.x d) in
  Animator.ani_frames w = map Z.of_nat (seq 0 N) /\
  (forall passes k,
     In k (Animator.driver_calls (Animator.ani_frames w) passes) ->
     0 <= k <= Z.of_nat N - 1) /\
  (Animator.script_markers w -> Animator.aligned d ->
   (forall k, In k (Animator.ani_frames w) ->
      fst (Animator.update k w) = inr Animator.all_artists) /\
   (forall passes,
      fst (Animator.animate passes w)
      = inr (map (fun _ => Animator.all_artists)
               (Animator.driver_calls (Animator.ani_frames w) passes))) /\
   forall n, N = S n ->
     let final :=
       Animator.mkartist [last (Ephemeris.x d) 0%float]
                         [last (Ephemeris.y d) 0%float]
                         [last (Ephemeris.z d) 0%float] in
     Animator.comet_marker_artist (snd (Animator.update (Z.of_nat n) w))
     = final /\
     forall passes,
       Animator.comet_marker_artist
         (snd (Animator.animate (S passes) w)) = final).
Proof.
  intros d N.
  assert (Hframes : Animator.ani_frames w = map Z.of_nat (seq 0 N))
    by apply range_spec.
  split; [exact Hframes|].
  split.
  { intros passes k Hin. apply driver_calls_in_range in Hin.
    exact (in_range_bounds _ k Hin). }
  intros Hm Ha.
  assert (Hrun : forall passes,
             Animator.run
               (Animator.driver_calls (Animator.ani_frames w) passes) w
             = (inr (map (fun _ => Animator.all_artists)
                       (Animator.driver_calls (Animator.ani_frames w)
                          passes)),
                fold_left
                  (fun _ k => Animator.frame_world d (Z.to_nat k))
                  (Animator.driver_calls (Animator.ani_frames w) passes)
                  w)).
  { intros passes. apply run_ok; [exact Ha | | reflexivity | exact Hm].
    apply Forall_forall. intros k Hin.
    apply driver_calls_in_range, in_range_bounds in Hin.
    unfold Py.len in Hin |- *. fold d in Hin. lia. }
  split; [|split].
  - intros k Hin. rewrite Hframes in Hin. apply in_map_iff in Hin.
    destruct Hin as [n [<- Hn]]. apply in_seq in Hn.
    rewrite (update_ok w n Hm Ha) by (fold d N; lia). reflexivity.
  - intros passes. unfold Animator.animate, Animator.bind, Animator.gets.
    rewrite Hrun. reflexivity.
  - intros n HN final. pose proof Ha as [Hy [Hz _]]. fold d N in Hy, Hz.
    assert (Hlast : Animator.comet_marker_artist (Animator.frame_world d n)
                    = final).
    { unfold final. cbn [Animator.frame_world Animator.comet_marker_artist].
      rewrite !(nth_pred_last _ n) by (fold N; congruence). reflexivity. }
    split.
    + rewrite (update_ok w n Hm Ha) by (fold d N; lia). exact Hlast.
    + intros passes.
      unfold Animator.animate, Animator.bind, Animator.gets.
      rewrite Hrun. cbn [snd]. unfold Animator.ani_frames, Py.len.
      fold d N. rewrite HN, fold_last_pass. exact Hlast.
Qed.

Lemma frames_in_range_witness :
  let w := Animator.init_world Animator.sample_data in
  Animator.ani_frames w = [0; 1] /\
  fst (Animator.animate 1 w)
  = inr [Animator.all_artists; Animator.all_artists; Animator.all_artists] /\
  Animator.comet_marker_artist (snd (Animator.animate 1 w))
  = Animator.mkartist [-1.25]%float [1.75]%float [0.5]%float.
Proof.
  intros w.
  assert (Ha : Animator.aligned (Animator.data w)).
  { refine (proj2 (fetch_aligned Ephemeris.sample_vectors
                     Ephemeris.sample_grid _ _ eq_refl)).
    intros q t Ht. injection Ht as <-. reflexivity. }
  destruct (frames_in_range w) as [Hframes [_ Hrun]].
  destruct (Hrun eq_refl Ha) as [_ [Hanimate Hfinal]].
  split; [exact Hframes|]. split; [exact (Hanimate 1%nat)|].
  exact (proj2 (Hfinal 1%nat eq_refl) 0%nat).
Defined.

(** C9: a call of [update], at any frame and whether it returns or
    raises, leaves the fetched arrays -- the comet's x, y, z and every
    entry of [planet_positions] -- as they were; so does a whole run.
    Only the artists change. *)
Theorem update_keeps_data (k : Z) (w : Animator.world) :
  Animator.data (snd (Animator.update k w)) = Animator.data w /\
  (forall passes,
     Animator.data (snd (Animator.animate passes w)) = Animator.data w) /\
  forall frames,
    Animator.data (snd (Animator.run frames w)) = Animator.data w.
Proof.
  split; [apply update_preserves_data|]. split; [|intros frames; apply run_preserves_data].
  intros passes. unfold Animator.animate, Animator.bind, Animator.gets.
  apply run_preserves_data.
Qed.

(** C10: the outcome of [update(k)] depends on the fetched arrays alone:
    two calls at the same frame over the same arrays, from whatever
    artist states, both raise the same exception or both return, and
    then leave the path and every marker at the same coordinates.  A call
    that returns gives the five artists in the order line, comet marker,
    Earth, Mars, Jupiter; at a frame in [0, N) over aligned arrays the
    call returns. *)
Theorem update_deterministic (w1 w2 : Animator.world) (k : Z) :
  Animator.data w1 = Animator.data w2 ->
  Animator.script_markers w1 -> Animator.script_markers w2 ->
  fst (Animator.update k w1) = fst (Animator.update k w2) /\
  (forall artists, fst (Animator.update k w1) = inr artists ->
     artists = [Animator.line; Animator.comet_marker;
                Animator.planet_marker "Earth";
                Animator.planet_marker "Mars";
                Animator.planet_marker "Jupiter"] /\
     snd (Animator.update k w1) = snd (Animator.update k w2)) /\
  (Animator.aligned (Animator.data w1) ->
   0 <= k < Py.len (Ephemeris.x (Animator.data w1)) ->
   fst (Animator.update k w1) = inr Animator.all_artists).
Proof.
  intros Hd Hm1 Hm2.
  destruct (update_same_data w1 w2 k Hd Hm1 Hm2) as [Hfst Hsnd].
  split; [exact Hfst|]. split; [exact Hsnd|].
  intros Ha Hk. unfold Py.len in Hk.
  replace k with (Z.of_nat (Z.to_nat k)) by lia.
  rewrite (update_ok w1 (Z.to_nat k) Hm1 Ha) by lia. reflexivity.
Qed.

Lemma update_deterministic_witness :
  let w1 := Animator.init_world Animator.sample_data in
  let w2 := Animator.frame_world Animator.sample_data 1 in
  Animator.update 0 w1 = Animator.update 0 w2 /\
  fst (Animator.update 0 w1) = inr Animator.all_artists.
Proof.
  intros w1 w2.
  destruct (update_deterministic w1 w2 0 eq_refl eq_refl eq_refl)
    as [Hfst [Hsnd _]].
  destruct (Hsnd Animator.all_artists eq_refl) as [_ Hworld].
  split; [|reflexivity].
  destruct (Animator.update 0 w1) as [r1 s1], (Animator.update 0 w2) as [r2 s2].
  cbn [fst snd] in Hfst, Hworld. rewrite Hfst, Hworld. reflexivity.
Defined.

(** * Further properties of the script *)

(** ** Date Indexer *)

Lemma date_index_quot (target start : Calendar.date) :
  DateIndex.date_index target start
  = Z.quot (Calendar.days_between target start) 2.
Proof. unfold DateIndex.date_index. apply int_of_true_div_2. Qed.

(** X1: for any two dates, twice the index is the day offset rounded to
    an even number toward zero: it is within one day of the offset, never
    farther from the start than the target is, and on the target's side
    of the start.  Swapping the two dates negates the index. *)
Theorem date_index_within_a_day (target start : Calendar.date) :
  let days := Calendar.days_between target start in
  let i := DateIndex.date_index target start in
  2 * Z.abs i <= Z.abs days <= 2 * Z.abs i + 1 /\
  0 <= i * days /\
  DateIndex.date_index start target = - i.
Proof.
  cbv zeta. rewrite !date_index_quot.
  replace (Calendar.days_between start target)
    with (- Calendar.days_between target start)
    by (unfold Calendar.days_between; lia).
  set (n := Calendar.days_between target start).
  rewrite Z.quot_opp_l by lia.
  pose proof (Z.quot_rem' n 2) as Hq.
  destruct (Z.le_gt_cases 0 n) as [Hpos | Hneg].
  - pose proof (Z.rem_bound_pos n 2 Hpos ltac:(lia)).
    pose proof (Z.quot_pos n 2 Hpos ltac:(lia)). nia.
  - pose proof (Z.rem_bound_pos_neg n 2 ltac:(lia) ltac:(lia)).
    assert (Z.quot n 2 <= 0) by lia.
    nia.
Qed.

(** X2: a later target never gets a smaller index, whatever the start. *)
Theorem date_index_monotone (t1 t2 start : Calendar.date) :
  Calendar.toordinal t1 <= Calendar.toordinal t2 ->
  DateIndex.date_index t1 start <= DateIndex.date_index t2 start.
Proof.
  intros Hle. rewrite !date_index_quot. unfold Calendar.days_between.
  apply Z.quot_le_mono; lia.
Qed.

Lemma date_index_monotone_witness :
  DateIndex.date_index (Calendar.mkdate 2025 10 30) DateIndex.start_dt
  <= DateIndex.date_index (Calendar.mkdate 2025 11 4) DateIndex.start_dt.
Proof.
  apply date_index_monotone. vm_compute. discriminate.
Defined.

(** ** Ephemeris Fetcher *)

Lemma fill_entry_unmask (e : Ephemeris.masked) :
  Ephemeris.fill_entry (Script.unmask e) = Ephemeris.fill_entry e.
Proof. reflexivity. Qed.

Lemma filled_unmask (f : Ephemeris.row -> Ephemeris.masked)
    (g : Ephemeris.row -> Ephemeris.masked) (t : Ephemeris.table) :
  (forall r, g (Script.unmask_row r) = Script.unmask (f r)) ->
  Ephemeris.filled Ephemeris.sentinel (map g (map Script.unmask_row t))
  = Ephemeris.filled Ephemeris.sentinel (map f t).
Proof.
  intros Hg. unfold Ephemeris.filled. rewrite !map_map.
  apply map_ext. intros r. rewrite Hg. reflexivity.
Qed.

Lemma positions_of_unmask (t : Ephemeris.table) :
  Ephemeris.positions_of (map Script.unmask_row t)
  = Ephemeris.positions_of t.
Proof.
  unfold Ephemeris.positions_of.
  rewrite (filled_unmask Ephemeris.row_x), (filled_unmask Ephemeris.row_y),
    (filled_unmask Ephemeris.row_z) by reflexivity.
  reflexivity.
Qed.

(** X3: the fetch raises exactly when one of the four queries does, and
    then with the error of the first failing query in the order comet,
    Earth, Mars, Jupiter; the queries after it are not what decides. *)
Theorem fetch_raises_first_error
    (vectors : Ephemeris.query -> Py.result Ephemeris.table) (e : Py.exn) :
  Ephemeris.fetch vectors = inl e <->
  exists pre id post,
    Script.query_ids = pre ++ id :: post /\
    vectors (Ephemeris.Horizons id) = inl e /\
    forall id', In id' pre ->
      exists t, vectors (Ephemeris.Horizons id') = inr t.
Proof.
  unfold Ephemeris.fetch, Ephemeris.planet_ids, Script.query_ids.
  cbn [Ephemeris.fetch_planets map snd].
  split.
  - destruct (vectors (Ephemeris.Horizons Ephemeris.obj_id))
      as [ec | tc] eqn:Hc.
    { intros H. injection H as <-.
      exists [], Ephemeris.obj_id, ["399"; "499"; "599"]%string.
      repeat split; [exact Hc | intros id' []]. }
    destruct (vectors (Ephemeris.Horizons "399")) as [ee | te] eqn:He.
    { intros H. injection H as <-.
      exists [Ephemeris.obj_id], "399"%string, ["499"; "599"]%string.
      repeat split; [exact He|].
      intros id' [<- | []]. eexists. exact Hc. }
    destruct (vectors (Ephemeris.Horizons "499")) as [em | tm] eqn:Hm.
    { intros H. injection H as <-.
      exists [Ephemeris.obj_id; "399"%string], "499"%string, ["599"%string].
      repeat split; [exact Hm|].
      intros id' [<- | [<- | []]]; eexists; eassumption. }
    destruct (vectors (Ephemeris.Horizons "599")) as [ej | tj] eqn:Hj.
    { intros H. injection H as <-.
      exists [Ephemeris.obj_id; "399"%string; "499"%string], "599"%string, [].
      repeat split; [exact Hj|].
      intros id' [<- | [<- | [<- | []]]]; eexists; eassumption. }
    discriminate.
  - intros [pre [id [post [Hids [Hid Hpre]]]]].
    destruct pre as [|p1 [|p2 [|p3 [|p4 pre]]]]; cbn [app] in Hids.
    + injection Hids as <- _. rewrite Hid. reflexivity.
    + injection Hids as <- <- _.
      destruct (Hpre Ephemeris.obj_id ltac:(cbn; tauto)) as [tc ->].
      rewrite Hid. reflexivity.
    + injection Hids as <- <- <- _.
      destruct (Hpre Ephemeris.obj_id ltac:(cbn; tauto)) as [tc ->].
      destruct (Hpre "399"%string ltac:(cbn; tauto)) as [te ->].
      rewrite Hid. reflexivity.
    + injection Hids as <- <- <- <- _.
      destruct (Hpre Ephemeris.obj_id ltac:(cbn; tauto)) as [tc ->].
      destruct (Hpre "399"%string ltac:(cbn; tauto)) as [te ->].
      destruct (Hpre "499"%string ltac:(cbn; tauto)) as [tm ->].
      rewrite Hid. reflexivity.
    + exfalso. apply (f_equal (@List.length string)) in Hids.
      cbn in Hids. rewrite length_app in Hids. cbn in Hids. lia.
Qed.

Lemma fetch_raises_first_error_witness :
  Ephemeris.fetch Script.failing_vectors = inl (Py.ServiceError "timeout").
Proof.
  apply (proj2 (fetch_raises_first_error Script.failing_vectors _)).
  exists [Ephemeris.obj_id; "399"%string], "499"%string, ["599"%string].
  split; [reflexivity|]. split; [reflexivity|].
  intros id' [<- | [<- | []]]; eexists; reflexivity.
Defined.

(** X4: the arrays keep no trace of the mask: a fetch gives the same
    arrays, or the same error, when every masked sample of every answer
    is replaced by an unmasked sample holding 1e10. *)
Theorem fetch_forgets_masks
    (vectors : Ephemeris.query -> Py.result Ephemeris.table) :
  Ephemeris.fetch (fun q => Script.unmask_answer (vectors q))
  = Ephemeris.fetch vectors.
Proof.
  unfold Ephemeris.fetch, Ephemeris.planet_ids.
  cbn [Ephemeris.fetch_planets].
  destruct (vectors (Ephemeris.Horizons Ephemeris.obj_id)) as [e | tc];
    [reflexivity|].
  destruct (vectors (Ephemeris.Horizons "399")) as [e | te]; [reflexivity|].
  destruct (vectors (Ephemeris.Horizons "499")) as [e | tm]; [reflexivity|].
  destruct (vectors (Ephemeris.Horizons "599")) as [e | tj]; [reflexivity|].
  cbn [Script.unmask_answer].
  rewrite !positions_of_unmask.
  rewrite (filled_unmask Ephemeris.row_x), (filled_unmask Ephemeris.row_y),
    (filled_unmask Ephemeris.row_z) by reflexivity.
  reflexivity.
Qed.

(** ** Python sequences, at and beyond the bounds *)

Lemma index_cases {A} (l : list A) (i : Z) :
  Py.index l i = inl Py.IndexError \/ exists v, Py.index l i = inr v.
Proof.
  unfold Py.index.
  destruct ((_ <? 0) || (_ <=? _)); [left; reflexivity|].
  destruct (nth_error l _) as [v|]; [right; exists v|left]; reflexivity.
Qed.

Lemma index_below {A} (l : list A) (i : Z) :
  i < - Py.len l -> Py.index l i = inl Py.IndexError.
Proof.
  intros Hi. unfold Py.index.
  assert (0 <= Py.len l) by (unfold Py.len; lia).
  replace (i <? 0) with true by (symmetry; apply Z.ltb_lt; lia).
  replace (Py.len l + i <? 0) with true by (symmetry; apply Z.ltb_lt; lia).
  reflexivity.
Qed.

Lemma index_wrap {A} (l : list A) (i : Z) :
  - Py.len l <= i < 0 -> Py.index l i = Py.index l (Py.len l + i).
Proof.
  intros Hi.
  assert (H1 : (i <? 0) = true) by (apply Z.ltb_lt; lia).
  assert (H2 : (Py.len l + i <? 0) = false) by (apply Z.ltb_ge; lia).
  unfold Py.index. cbv zeta. rewrite H1. cbv iota. rewrite !H2. reflexivity.
Qed.

Lemma slice_to_all {A} (l : list A) (j : Z) :
  Py.len l <= j -> Py.slice_to l j = l.
Proof.
  intros Hj. unfold Py.slice_to.
  assert (0 <= Py.len l) by (unfold Py.len; lia).
  replace (j <? 0) with false by (symmetry; apply Z.ltb_ge; lia).
  rewrite Z.min_r by lia. unfold Py.len. rewrite Nat2Z.id.
  apply firstn_all.
Qed.

Lemma slice_to_nil {A} (l : list A) (j : Z) :
  j <= - Py.len l -> j <= 0 -> Py.slice_to l j = [].
Proof.
  intros Hj H0. unfold Py.slice_to.
  assert (0 <= Py.len l) by (unfold Py.len; lia).
  destruct (j <? 0) eqn:Hneg.
  - rewrite Z.max_l by lia. reflexivity.
  - apply Z.ltb_ge in Hneg. rewrite Z.min_l by lia.
    replace j with 0 by lia. reflexivity.
Qed.

Lemma slice_to_wrap {A} (l : list A) (j : Z) (n : nat) :
  j < 0 -> Py.len l + j = Z.of_nat n -> Py.slice_to l j = firstn n l.
Proof.
  intros Hj Hn. unfold Py.slice_to.
  replace (j <? 0) with true by (symmetry; apply Z.ltb_lt; lia).
  rewrite Hn, Z.max_r by lia. rewrite Nat2Z.id. reflexivity.
Qed.

(** ** Animator, beyond the frames of the driver *)

Section AnimatorEdges.
Import Ephemeris Animator.

(** Runs [update] up to the next index, the planet loop included. *)
Ltac exec :=
  cbv beta iota zeta delta
    [update update_planets planet_sample bind ret gets lift set_data
     set_3d_properties get_artist put_artist data line_artist
     comet_marker_artist planet_markers xdata ydata zdata Py.keys Py.get
     Py.set map fst snd app String.eqb Ascii.eqb Bool.eqb planet_ids].

(** Runs the statements of [update] before the planet loop. *)
Ltac exec_head :=
  cbv beta iota zeta delta
    [update bind ret gets lift set_data set_3d_properties get_artist
     put_artist data line_artist planet_markers xdata ydata zdata].

Lemma planet_coordinate_wrap (d : fetched) (planet axis : string) (k : Z) :
  aligned d -> In planet (Py.keys planet_ids) -> In axis axes ->
  - Py.len (x d) <= k < 0 ->
  planet_coordinate d planet axis k
  = inr (sample_at d planet axis (Z.to_nat (Py.len (x d) + k))).
Proof.
  intros [_ [_ Hplanets]] Hp Haxis Hk.
  destruct (Hplanets planet Hp) as [pos [Hpos Harrs]].
  destruct (Harrs axis Haxis) as [arr [Harr Hlen]].
  unfold planet_coordinate, sample_at, planet_array.
  rewrite Hpos, Harr. unfold Py.len in Hk.
  rewrite index_wrap by (unfold Py.len; lia).
  replace (Py.len arr) with (Py.len (x d)) by (unfold Py.len; lia).
  unfold Py.len.
  rewrite <- (Z2Nat.id (Z.of_nat (List.length (x d)) + k)) at 1 by lia.
  apply index_nth. lia.
Qed.


Lemma run_keeps_markers (frames : list Z) (w : world) :
  script_markers w -> script_markers (snd (run frames w)).
Proof.
  revert w. induction frames as [|k rest IH]; intros w Hm; [exact Hm|].
  cbn [run]. unfold bind at 1.
  pose proof (update_keeps_markers w k Hm) as Hk.
  destruct (update k w) as [[e | artists] w1]; cbn [snd] in Hk |- *;
    [exact Hk|].
  unfold bind. specialize (IH w1 Hk).
  destruct (run rest w1) as [[e | more] w2]; exact IH.
Qed.

(** X5: over fetched arrays, the only exception a call of [update] can
    raise, at any frame a C long holds (from -2^63 up to 2^63 - 1), is
    [IndexError]: every planet the marker dict names and every axis
    looked up is a key of [planet_positions], so no [KeyError] occurs. *)
Theorem update_raises_only_index_error
    (vectors : query -> Py.result table) (w : world) (k : Z) (e : Py.exn) :
  fetch vectors = inr (data w) -> script_markers w ->
  - 2 ^ 63 <= k < 2 ^ 63 ->
  fst (update k w) = inl e -> e = Py.IndexError.
Proof.
  intros Hfetch Hm _.
  destruct (fetch_inv vectors _ Hfetch) as [tc [te [tm [tj [_ [_ [_ [_ Hd]]]]]]]].
  destruct w as [d la ca pm]. cbn [data] in Hd. subst d.
  unfold script_markers in Hm. cbn in Hm.
  destruct pm as [|[p1 a1] [|[p2 a2] [|[p3 a3] [|]]]]; try discriminate.
  injection Hm as -> -> ->.
  exec.
  cbv beta iota zeta delta
    [planet_coordinate planet_array planet_positions positions_of x y z
     Py.get String.eqb Ascii.eqb Bool.eqb].
  repeat
    match goal with
    | |- context [Py.index ?l ?i] =>
        let H := fresh "H" in
        destruct (index_cases l i) as [H | [? H]]; rewrite H; exec;
        [intros H'; injection H' as <-; reflexivity |]
    end.
  intros H'. discriminate.
Qed.

Lemma update_raises_only_index_error_witness :
  fst (update 7 (init_world sample_data)) = inl Py.IndexError.
Proof.
  destruct (fst (update 7 (init_world sample_data))) as [e | artists] eqn:He;
    [|discriminate He].
  f_equal.
  refine (update_raises_only_index_error sample_vectors
            (init_world sample_data) 7 e eq_refl eq_refl _ He).
  split; [discriminate | reflexivity].
Defined.

(** X6: a frame outside [-N, N) that a C long holds (from -2^63 up to
    2^63 - 1) makes [update] raise [IndexError] at the comet's first
    index.  The path has been overwritten by then -- with the whole
    trajectory for a frame past the end, with nothing for a frame below
    -N -- and no marker has moved. *)
Theorem update_out_of_range (w : world) (k : Z) :
  List.length (y (data w)) = List.length (x (data w)) ->
  List.length (z (data w)) = List.length (x (data w)) ->
  Py.len (x (data w)) <= k < 2 ^ 63 \/
  - 2 ^ 63 <= k < - Py.len (x (data w)) ->
  update k w
  = (inl Py.IndexError,
     mkworld (data w)
       (if 0 <=? k
        then mkartist (x (data w)) (y (data w)) (z (data w))
        else empty_artist)
       (comet_marker_artist w) (planet_markers w)).
Proof.
  intros Hy Hz Hk. destruct w as [d la ca pm]. cbn [data] in Hy, Hz, Hk.
  assert (Hly : Py.len (y d) = Py.len (x d)) by (unfold Py.len; lia).
  assert (Hlz : Py.len (z d) = Py.len (x d)) by (unfold Py.len; lia).
  assert (H0 : 0 <= Py.len (x d)) by (unfold Py.len; lia).
  exec_head.
  destruct Hk as [[Hk _] | [_ Hk]].
  - rewrite (index_out_of_range (x d) k Hk).
    rewrite !slice_to_all by lia.
    replace (0 <=? k) with true by (symmetry; apply Z.leb_le; lia).
    reflexivity.
  - rewrite (index_below (x d) k Hk).
    rewrite !slice_to_nil by lia.
    replace (0 <=? k) with false by (symmetry; apply Z.leb_gt; lia).
    reflexivity.
Qed.

Lemma update_out_of_range_witness :
  update 2 (init_world sample_data)
  = (inl Py.IndexError,
     mkworld sample_data
       (mkartist [1e10; -1.25]%float [1.5; 1.75]%float [0.25; 0.5]%float)
       empty_artist
       [("Earth", empty_artist); ("Mars", empty_artist);
        ("Jupiter", empty_artist)]%string).
Proof.
  refine (update_out_of_range (init_world sample_data) 2 eq_refl eq_refl _).
  left. vm_compute. split; [discriminate | reflexivity].
Defined.

(** X7: a negative frame in [-N, 0) does not raise: every marker goes to
    sample N + k, counted from the end.  The path is the first N + k + 1
    samples, as for frame N + k, except at frame -1, where the slice
    [x[:0]] leaves it empty. *)
Theorem update_negative_frame (w : world) (k : Z) :
  script_markers w -> aligned (data w) ->
  - Py.len (x (data w)) <= k < 0 ->
  let n := Z.to_nat (Py.len (x (data w)) + k) in
  update k w
  = (inr all_artists,
     mkworld (data w)
       (if k =? -1 then empty_artist
        else line_artist (frame_world (data w) n))
       (comet_marker_artist (frame_world (data w) n))
       (planet_markers (frame_world (data w) n))).
Proof.
  intros Hm Ha Hk n.
  destruct w as [d la ca pm]. unfold script_markers in Hm. cbn in Hm.
  cbn [data] in Ha, Hk, n.
  destruct pm as [|[p1 a1] [|[p2 a2] [|[p3 a3] [|]]]]; try discriminate.
  injection Hm as -> -> ->.
  pose proof Ha as [Hy [Hz _]].
  assert (Hly : Py.len (y d) = Py.len (x d)) by (unfold Py.len; lia).
  assert (Hlz : Py.len (z d) = Py.len (x d)) by (unfold Py.len; lia).
  assert (Hn : Py.len (x d) + k = Z.of_nat n) by (unfold n; lia).
  assert (Hlt : (n < List.length (x d))%nat) by (unfold Py.len in *; lia).
  assert (Hidx : forall l : list float,
             Py.len l = Py.len (x d) ->
             Py.index l k = inr (nth n l 0%float)).
  { intros l Hl. rewrite index_wrap by lia. rewrite Hl, Hn.
    apply index_nth. unfold Py.len in Hl. lia. }
  assert (Hs : forall planet axis,
             In planet (Py.keys planet_ids) -> In axis axes ->
             planet_coordinate d planet axis k
             = inr (sample_at d planet axis n)).
  { intros planet axis Hp Haxis.
    exact (planet_coordinate_wrap d planet axis k Ha Hp Haxis Hk). }
  unfold frame_world, all_artists.
  exec. rewrite (Hidx (x d) eq_refl). exec.
  rewrite (Hidx (y d) Hly). exec. rewrite (Hidx (z d) Hlz). exec.
  repeat (rewrite Hs by (cbn; tauto); exec).
  destruct (Z.eqb_spec k (-1)) as [-> | Hk1].
  - assert (Hnil : forall l : list float, Py.slice_to l (-1 + 1) = []).
    { intros l. unfold Py.slice_to. cbn [Z.add Z.ltb Z.compare Z.pos_sub].
      rewrite Z.min_l by (unfold Py.len; lia). reflexivity. }
    rewrite !Hnil. reflexivity.
  - rewrite (slice_to_wrap (x d) (k + 1) (S n)),
      (slice_to_wrap (y d) (k + 1) (S n)),
      (slice_to_wrap (z d) (k + 1) (S n)) by lia.
    reflexivity.
Qed.

Lemma update_negative_frame_witness :
  update (-1) (init_world sample_data)
  = (inr all_artists,
     mkworld sample_data empty_artist
       (mkartist [-1.25]%float [1.75]%float [0.5]%float)
       (planet_markers (frame_world sample_data 1))).
Proof.
  assert (Ha : aligned sample_data).
  { refine (proj2 (fetch_aligned sample_vectors sample_grid _ _ eq_refl)).
    intros q t Ht. injection Ht as <-. reflexivity. }
  refine (update_negative_frame (init_world sample_data) (-1) eq_refl Ha _).
  vm_compute. split; [discriminate | reflexivity].
Defined.

(** X8: a call is not all-or-nothing.  At a frame in [0, N) the comet's
    marker is at sample k when the call ends, in every world and whether
    the call returned or a planet lookup raised after the comet was
    drawn. *)
Theorem comet_drawn_before_planets (w : world) (k : Z) :
  List.length (y (data w)) = List.length (x (data w)) ->
  List.length (z (data w)) = List.length (x (data w)) ->
  0 <= k < Py.len (x (data w)) ->
  exists xk yk zk,
    Py.index (x (data w)) k = inr xk /\
    Py.index (y (data w)) k = inr yk /\
    Py.index (z (data w)) k = inr zk /\
    comet_marker_artist (snd (update k w)) = mkartist [xk] [yk] [zk].
Proof.
  intros Hy Hz Hk. destruct w as [d la ca pm]. cbn [data] in Hy, Hz, Hk.
  unfold Py.len in Hk. set (n := Z.to_nat k).
  assert (Hkn : k = Z.of_nat n) by (unfold n; lia).
  assert (Hxk := index_nth (x d) n 0%float ltac:(lia)).
  assert (Hyk := index_nth (y d) n 0%float ltac:(lia)).
  assert (Hzk := index_nth (z d) n 0%float ltac:(lia)).
  rewrite <- Hkn in Hxk, Hyk, Hzk.
  exists (nth n (x d) 0%float), (nth n (y d) 0%float), (nth n (z d) 0%float).
  repeat (split; [assumption|]).
  exec_head. rewrite Hxk. exec_head. rewrite Hyk. exec_head.
  rewrite Hzk. exec_head.
  rewrite (update_planets_preserves comet_marker_artist k
             (fun planet a =>
                put_artist_comet_marker (planet_marker planet) a
                  ltac:(discriminate))).
  reflexivity.
Qed.

Lemma comet_drawn_before_planets_witness :
  let short := [("x", [7]); ("y", [8]); ("z", [9])]%string%float in
  let w := mkworld (mkfetched [1; 2]%float [3; 4]%float [5; 6]%float
                      [("Earth"%string, short)])
             empty_artist empty_artist [("Earth", empty_artist)]%string in
  fst (update 1 w) = inl Py.IndexError /\
  comet_marker_artist (snd (update 1 w))
  = mkartist [2]%float [4]%float [6]%float.
Proof.
  intros short w. split; [reflexivity|].
  destruct (comet_drawn_before_planets w 1 eq_refl eq_refl)
    as [xk [yk [zk [Hx [Hy [Hz Hc]]]]]].
  { vm_compute. split; [discriminate | reflexivity]. }
  injection Hx as <-. injection Hy as <-. injection Hz as <-. exact Hc.
Defined.

(** X9: the marker dict keeps its three keys, in order, through any
    sequence of calls of [update], whether they return or raise: a call
    moves markers and never adds or removes one. *)
Theorem markers_dict_kept (w : world) (frames : list Z) :
  script_markers w ->
  script_markers (snd (run frames w)) /\
  forall k, script_markers (snd (update k w)).
Proof.
  intros Hm. split; [apply run_keeps_markers; exact Hm|].
  intros k. apply update_keeps_markers. exact Hm.
Qed.

Lemma markers_dict_kept_witness :
  Py.keys (planet_markers (snd (run [0; 5; 1] (init_world sample_data))))
  = ["Earth"; "Mars"; "Jupiter"]%string.
Proof.
  exact (proj1 (markers_dict_kept (init_world sample_data) [0; 5; 1] eq_refl)).
Defined.

(** X10: a returning call erases what any earlier call left, returned or
    raised: after [update(j)] then [update(k)] the result and every
    artist are those of [update(k)] alone.  In particular a returning
    call is idempotent. *)
Theorem update_overwrites (w : world) (j k : Z)
    (artists : list artist_ref) :
  script_markers w ->
  fst (update k w) = inr artists ->
  update k (snd (update j w)) = update k w.
Proof.
  intros Hm Hret.
  assert (Hd : data w = data (snd (update j w)))
    by (symmetry; apply update_preserves_data).
  destruct (update_same_data w (snd (update j w)) k Hd Hm
              (update_keeps_markers w j Hm)) as [Hfst Hsnd].
  destruct (Hsnd artists Hret) as [_ Hw].
  destruct (update k w) as [r1 w1], (update k (snd (update j w))) as [r2 w2].
  cbn [fst snd] in Hfst, Hw. rewrite Hfst, Hw. reflexivity.
Qed.

Lemma update_overwrites_witness :
  update 0 (snd (update 5 (init_world sample_data)))
  = update 0 (init_world sample_data).
Proof.
  exact (update_overwrites (init_world sample_data) 5 0 all_artists
           eq_refl eq_refl).
Defined.

End AnimatorEdges.

(** ** Scene Builder and the script as a whole *)

Section ScriptFacts.
Import Ephemeris Animator Scene Script.

Variables np_cos np_sin : float -> float.

Lemma index_head {A} (a : A) (l : list A) : Py.index (a :: l) 0 = inr a.
Proof.
  unfold Py.index, Py.len. cbn [Z.ltb Z.compare List.length orb].
  destruct (Z.of_nat (S (List.length l)) <=? 0) eqn:Hle;
    [apply Z.leb_le in Hle; lia | reflexivity].
Qed.

Lemma scene_outcome (d : fetched) :
  (x d = [] -> scene np_cos np_sin d
               = (static_draws np_cos np_sin, Some Py.IndexError)) /\
  forall x0 xs y0 ys z0 zs,
    x d = x0 :: xs -> y d = y0 :: ys -> z d = z0 :: zs ->
    scene np_cos np_sin d
    = (static_draws np_cos np_sin
         ++ [scatter x0 y0 z0 "Position on Nov 1, 2025"], None).
Proof.
  unfold scene, highlight.
  change DateIndex.nov1_index with (@inr Py.exn Z 0).
  split.
  - intros ->. reflexivity.
  - intros x0 xs y0 ys z0 zs -> -> ->. rewrite !index_head. reflexivity.
Qed.

(** X11: the highlight is the first fetched sample of the comet.  With
    no sample at all the index raises [IndexError] once the three orbits
    and the Sun are drawn; with at least one sample the scene is those
    four draws followed by the highlight, and nothing is raised. *)
Theorem highlight_is_first_sample (d : fetched) :
  (x d = [] -> scene np_cos np_sin d
               = (static_draws np_cos np_sin, Some Py.IndexError)) /\
  forall x0 xs y0 ys z0 zs,
    x d = x0 :: xs -> y d = y0 :: ys -> z d = z0 :: zs ->
    scene np_cos np_sin d
    = (static_draws np_cos np_sin
         ++ [scatter x0 y0 z0 "Position on Nov 1, 2025"], None).
Proof.
  split.
  - exact (proj1 (scene_outcome d)).
  - intros x0 xs y0 ys z0 zs Hx Hy Hz.
    exact (proj2 (scene_outcome d) x0 xs y0 ys z0 zs Hx Hy Hz).
Qed.





(** X13: when the comet's query returns a table with no row, the script
    raises [IndexError] at the highlight on line 70, after the static
    draws and before any frame is drawn, however the planets' queries
    were answered. *)
Theorem script_fails_on_empty_answer
    (vectors : query -> Py.result table) (d : fetched) (passes : nat) :
  fetch vectors = inr d ->
  vectors (Horizons obj_id) = inr [] ->
  script vectors np_cos np_sin passes = inl Py.IndexError /\
  scene np_cos np_sin d = (static_draws np_cos np_sin, Some Py.IndexError).
Proof.
  intros Hd Hc.
  destruct (fetch_inv vectors d Hd) as [tc [te [tm [tj [Hc' [_ [_ [_ Hdd]]]]]]]].
  rewrite Hc in Hc'. injection Hc' as <-.
  assert (Hx : x d = []) by (rewrite Hdd; reflexivity).
  pose proof (proj1 (scene_outcome d) Hx) as Hscene.
  split; [|exact Hscene].
  unfold script. rewrite Hd, Hscene. reflexivity.
Qed.

End ScriptFacts.

Lemma highlight_is_first_sample_witness :
  Scene.scene (fun t => t) (fun t => t) Animator.sample_data
  = (Scene.static_draws (fun t => t) (fun t => t)
       ++ [Scene.scatter 1e10 1.5 0.25 "Position on Nov 1, 2025"]%float,
     None).
Proof.
  exact (proj2 (highlight_is_first_sample (fun t => t) (fun t => t)
                  Animator.sample_data)
           _ _ _ _ _ _ eq_refl eq_refl eq_refl).
Defined.


Lemma script_fails_on_empty_answer_witness :
  Script.script Script.empty_vectors (fun t => t) (fun t => t) 1
  = inl Py.IndexError.
Proof.
  refine (proj1 (script_fails_on_empty_answer (fun t => t) (fun t => t)
                   Script.empty_vectors _ 1 _ eq_refl)).
  reflexivity.
Defined.

(** ** Console output *)



(** An exact case: the sample (3, 4, 0) is printed at distance 5, its
    Euclidean norm. *)
Example distance_3_4_0 :
  Console.distance 3 4 0 = 5%float /\
  Console.is_euclidean_norm (Console.distance 3 4 0) 3 4 0.
Proof.
  split; [reflexivity|].
  unfold Console.is_euclidean_norm. vm_compute.
  split; [discriminate | reflexivity].
Qed.



